(** * The StatefulSet builder of the RabbitMQ cluster operator

    A shallow embedding of [internal/resource/statefulset.go]: the builder's
    [Build] and [Update], the storage-claim builder, the pod template with its
    environment, ports and pre-stop hook, together with the properties the
    specification states about them.

    Go values are modelled as they are written: structs as records (one module
    per struct, so that fields keep their Go names), [map[string]T] as
    [gmap string T], slices as lists, pointers that may be nil as [option],
    [int32]/[int64] as [Z].  In-place mutation of the StatefulSet, the
    controller log and the two ways a call can end (an [error] value or a
    panic) are threaded through a small state monad. *)

From Stdlib Require Import ZArith String Ascii List Bool Lia.
From stdpp Require Import base option list gmap strings fin_maps.

Import ListNotations.
Local Open Scope string_scope.
Local Open Scope Z_scope.

(** ** resource.Quantity (k8s.io/apimachinery) *)

Inductive Format := DecimalExponent | BinarySI | DecimalSI.

Module Quantity.
(** A quantity is a number with the notation it was written in.  The number
    is kept in units of 10^-9, the finest scale the library stores. *)
Record t := mk { nano : Z; format : Format }.

(** [Quantity.Equal]: the numbers are compared, the notation is not. *)
Definition Equal (a b : t) : bool := (nano a =? nano b)%Z.
End Quantity.

(** ** metav1 *)

Module OwnerReference.
Record t := mk {
  APIVersion : string;
  Kind : string;
  Name : string;
  UID : string;
  Controller : option bool;
  BlockOwnerDeletion : option bool
}.
End OwnerReference.

Module ObjectMeta.
Record t := mk {
  Name : string;
  Namespace : string;
  UID : string;
  ResourceVersion : string;
  CreationTimestamp : string;
  Labels : gmap string string;
  Annotations : gmap string string;
  OwnerReferences : list OwnerReference.t
}.

(** The zero value of the struct, what a Go literal leaves unset. *)
Definition zero : t := mk "" "" "" "" "" ∅ ∅ [].

Definition with_Labels (l : gmap string string) (m : t) : t :=
  mk (Name m) (Namespace m) (UID m) (ResourceVersion m) (CreationTimestamp m)
     l (Annotations m) (OwnerReferences m).
Definition with_Annotations (a : gmap string string) (m : t) : t :=
  mk (Name m) (Namespace m) (UID m) (ResourceVersion m) (CreationTimestamp m)
     (Labels m) a (OwnerReferences m).
Definition with_OwnerReferences (o : list OwnerReference.t) (m : t) : t :=
  mk (Name m) (Namespace m) (UID m) (ResourceVersion m) (CreationTimestamp m)
     (Labels m) (Annotations m) o.
End ObjectMeta.

Module LabelSelector.
Record t := mk { MatchLabels : gmap string string }.
End LabelSelector.

Module GroupVersionKind.
Record t := mk { Group : string; Version : string; Kind : string }.
End GroupVersionKind.

(** ** corev1 *)

Module ResourceRequirements.
Record t := mk {
  Limits : gmap string Quantity.t;
  Requests : gmap string Quantity.t
}.
Definition zero : t := mk ∅ ∅.
End ResourceRequirements.

Inductive PersistentVolumeAccessMode := ReadWriteOnce | ReadOnlyMany | ReadWriteMany.

Module PersistentVolumeClaimSpec.
Record t := mk {
  AccessModes : list PersistentVolumeAccessMode;
  Resources : ResourceRequirements.t;
  StorageClassName : option string
}.
End PersistentVolumeClaimSpec.

Module PersistentVolumeClaim.
Record t := mk {
  Meta : ObjectMeta.t;
  Spec : PersistentVolumeClaimSpec.t
}.
End PersistentVolumeClaim.

Module ObjectFieldSelector.
Record t := mk { APIVersion : string; FieldPath : string }.
End ObjectFieldSelector.

Module EnvVarSource.
Record t := mk { FieldRef : option ObjectFieldSelector.t }.
End EnvVarSource.

Module EnvVar.
Record t := mk {
  Name : string;
  Value : string;
  ValueFrom : option EnvVarSource.t
}.
End EnvVar.

Module ContainerPort.
Record t := mk { Name : string; ContainerPort : Z }.
End ContainerPort.

Module VolumeMount.
Record t := mk { Name : string; MountPath : string }.
End VolumeMount.

Module ExecAction.
Record t := mk { Command : list string }.
End ExecAction.

Module Handler.
Record t := mk { Exec : option ExecAction.t }.
End Handler.

Module Probe.
Record t := mk {
  Handler_ : Handler.t;
  InitialDelaySeconds : Z;
  TimeoutSeconds : Z;
  PeriodSeconds : Z;
  SuccessThreshold : Z;
  FailureThreshold : Z
}.
End Probe.

Module Lifecycle.
Record t := mk { PostStart : option Handler.t; PreStop : option Handler.t }.
End Lifecycle.

Module Container.
Record t := mk {
  Name : string;
  Image : string;
  Command : list string;
  Env : list EnvVar.t;
  Ports : list ContainerPort.t;
  Resources : ResourceRequirements.t;
  VolumeMounts : list VolumeMount.t;
  ReadinessProbe : option Probe.t;
  Lifecycle_ : option Lifecycle.t
}.

Definition with_Resources (r : ResourceRequirements.t) (c : t) : t :=
  mk (Name c) (Image c) (Command c) (Env c) (Ports c) r (VolumeMounts c)
     (ReadinessProbe c) (Lifecycle_ c).
Definition with_Image (i : string) (c : t) : t :=
  mk (Name c) i (Command c) (Env c) (Ports c) (Resources c) (VolumeMounts c)
     (ReadinessProbe c) (Lifecycle_ c).
End Container.

Module KeyToPath.
Record t := mk { Key : string; Path : string }.
End KeyToPath.

Module LocalObjectReference.
Record t := mk { Name : string }.
End LocalObjectReference.

Module SecretVolumeSource.
Record t := mk { SecretName : string; Items : list KeyToPath.t }.
End SecretVolumeSource.

Module ConfigMapVolumeSource.
Record t := mk { LocalObjectReference_ : LocalObjectReference.t }.
End ConfigMapVolumeSource.

Module EmptyDirVolumeSource.
Record t := mk { Medium : string }.
End EmptyDirVolumeSource.

Module VolumeSource.
Record t := mk {
  Secret : option SecretVolumeSource.t;
  ConfigMap : option ConfigMapVolumeSource.t;
  EmptyDir : option EmptyDirVolumeSource.t
}.
End VolumeSource.

Module Volume.
Record t := mk { Name : string; VolumeSource_ : VolumeSource.t }.
End Volume.

Module PodSecurityContext.
Record t := mk {
  FSGroup : option Z;
  RunAsGroup : option Z;
  RunAsUser : option Z
}.
End PodSecurityContext.

Module Affinity.
(** The three selector trees are carried as they are; the builder only
    copies the pointer. *)
Record t := mk {
  NodeAffinity : option string;
  PodAffinity : option string;
  PodAntiAffinity : option string
}.
End Affinity.

Module Toleration.
Record t := mk {
  Key : string;
  Operator : string;
  Value : string;
  Effect : string;
  TolerationSeconds : option Z
}.
End Toleration.

Module PodSpec.
Record t := mk {
  SecurityContext : option PodSecurityContext.t;
  TerminationGracePeriodSeconds : option Z;
  ServiceAccountName : string;
  AutomountServiceAccountToken : option bool;
  InitContainers : list Container.t;
  Containers : list Container.t;
  Volumes : list Volume.t;
  ImagePullSecrets : list LocalObjectReference.t;
  Affinity_ : option Affinity.t;
  Tolerations : list Toleration.t;
  (* two of the fields the builder's literal never mentions *)
  DNSPolicy : string;
  PriorityClassName : string
}.

(** The zero value of the struct. *)
Definition zero : t := mk None None "" None [] [] [] [] None [] "" "".

Definition with_InitContainers (l : list Container.t) (p : t) : t :=
  mk (SecurityContext p) (TerminationGracePeriodSeconds p) (ServiceAccountName p)
     (AutomountServiceAccountToken p) l (Containers p) (Volumes p)
     (ImagePullSecrets p) (Affinity_ p) (Tolerations p) (DNSPolicy p)
     (PriorityClassName p).
Definition with_Containers (l : list Container.t) (p : t) : t :=
  mk (SecurityContext p) (TerminationGracePeriodSeconds p) (ServiceAccountName p)
     (AutomountServiceAccountToken p) (InitContainers p) l (Volumes p)
     (ImagePullSecrets p) (Affinity_ p) (Tolerations p) (DNSPolicy p)
     (PriorityClassName p).
Definition with_ImagePullSecrets (l : list LocalObjectReference.t) (p : t) : t :=
  mk (SecurityContext p) (TerminationGracePeriodSeconds p) (ServiceAccountName p)
     (AutomountServiceAccountToken p) (InitContainers p) (Containers p) (Volumes p)
     l (Affinity_ p) (Tolerations p) (DNSPolicy p) (PriorityClassName p).
Definition with_Affinity (a : option Affinity.t) (p : t) : t :=
  mk (SecurityContext p) (TerminationGracePeriodSeconds p) (ServiceAccountName p)
     (AutomountServiceAccountToken p) (InitContainers p) (Containers p) (Volumes p)
     (ImagePullSecrets p) a (Tolerations p) (DNSPolicy p) (PriorityClassName p).
Definition with_Tolerations (l : list Toleration.t) (p : t) : t :=
  mk (SecurityContext p) (TerminationGracePeriodSeconds p) (ServiceAccountName p)
     (AutomountServiceAccountToken p) (InitContainers p) (Containers p) (Volumes p)
     (ImagePullSecrets p) (Affinity_ p) l (DNSPolicy p) (PriorityClassName p).
End PodSpec.

Module PodTemplateSpec.
Record t := mk { Meta : ObjectMeta.t; Spec : PodSpec.t }.

Definition with_Meta (m : ObjectMeta.t) (p : t) : t := mk m (Spec p).
Definition with_Spec (s : PodSpec.t) (p : t) : t := mk (Meta p) s.
End PodTemplateSpec.

(** ** appsv1 *)

Module StatefulSetSpec.
Record t := mk {
  Replicas : option Z;
  Selector : option LabelSelector.t;
  Template : PodTemplateSpec.t;
  VolumeClaimTemplates : list PersistentVolumeClaim.t;
  ServiceName : string;
  PodManagementPolicy : string;
  RevisionHistoryLimit : option Z
}.

Definition with_Replicas (r : option Z) (s : t) : t :=
  mk r (Selector s) (Template s) (VolumeClaimTemplates s) (ServiceName s)
     (PodManagementPolicy s) (RevisionHistoryLimit s).
Definition with_Template (p : PodTemplateSpec.t) (s : t) : t :=
  mk (Replicas s) (Selector s) p (VolumeClaimTemplates s) (ServiceName s)
     (PodManagementPolicy s) (RevisionHistoryLimit s).
End StatefulSetSpec.

Module StatefulSetStatus.
Record t := mk { ObservedGeneration : Z; ReadyReplicas : Z; CurrentRevision : string }.
Definition zero : t := mk 0 0 "".
End StatefulSetStatus.

Module StatefulSet.
Record t := mk {
  Meta : ObjectMeta.t;
  Spec : StatefulSetSpec.t;
  Status : StatefulSetStatus.t
}.

Definition with_Meta (m : ObjectMeta.t) (s : t) : t := mk m (Spec s) (Status s).
Definition with_Spec (sp : StatefulSetSpec.t) (s : t) : t := mk (Meta s) sp (Status s).
End StatefulSet.

(** ** rabbitmqv1beta1: the cluster specification *)

Module RabbitmqClusterPersistenceSpec.
Record t := mk {
  StorageClassName : option string;
  Storage : option Quantity.t
}.
End RabbitmqClusterPersistenceSpec.

Module RabbitmqClusterSpec.
Record t := mk {
  Replicas : Z;
  Image : string;
  ImagePullSecret : string;
  Resources : option ResourceRequirements.t;
  Persistence : RabbitmqClusterPersistenceSpec.t;
  Affinity_ : option Affinity.t;
  Tolerations : list Toleration.t
}.
End RabbitmqClusterSpec.

Module RabbitmqCluster.
Record t := mk { Meta : ObjectMeta.t; Spec : RabbitmqClusterSpec.t }.

(** The accessors Go promotes from the embedded ObjectMeta. *)
Definition Name (c : t) : string := ObjectMeta.Name (Meta c).
Definition Namespace (c : t) : string := ObjectMeta.Namespace (Meta c).
Definition Labels (c : t) : gmap string string := ObjectMeta.Labels (Meta c).
Definition Annotations (c : t) : gmap string string := ObjectMeta.Annotations (Meta c).
End RabbitmqCluster.

(** ** runtime: objects and the scheme *)

(** A [runtime.Object] is one of the API types; the builder's [Update]
    receives it behind the interface. *)
Inductive Object :=
| ObjStatefulSet (sts : StatefulSet.t)
| ObjPersistentVolumeClaim (pvc : PersistentVolumeClaim.t)
| ObjOther (kind : string) (meta : ObjectMeta.t).

Module Scheme.
(** What the scheme answers when asked for the kinds registered for the
    Go type of the cluster resource. *)
Record t := mk { ObjectKinds : list GroupVersionKind.t }.
End Scheme.

(** ** Errors, and how a call ends *)

(** Go's [error] values, by the place that raises them. *)
Inductive error :=
| ErrNoKindRegistered
| ErrAmbiguousKind
| ErrClusterScopedObject (ownerNamespace : string)
| ErrCrossNamespace (ownerNamespace objectNamespace : string)
| ErrAlreadyOwned (by_ : OwnerReference.t)
| ErrQuantityFormat (text : string)
| Errorf (prefix : string) (cause : error).

(** One line written through the controller's logger: the chain of
    [WithName] calls and the message. *)
Record LogLine := mkLogLine { logger : list string; message : string }.

(** ** resource.ParseQuantity and ResourceList.Memory *)

Definition digit_of (c : ascii) : option Z :=
  let n := Z.of_nat (nat_of_ascii c) in
  if (48 <=? n) && (n <=? 57) then Some (n - 48) else None.

Fixpoint parseDigits (s : string) (acc : option Z) : option Z * string :=
  match s with
  | EmptyString => (acc, s)
  | String c rest =>
      match digit_of c with
      | Some d => parseDigits rest (Some (10 * default 0 acc + d))
      | None => (acc, s)
      end
  end.

(** The suffix table of the quantity grammar: the multiplier, in units of
    10^-9, and the notation the suffix belongs to. *)
Definition quantitySuffixes : list (string * (Z * Format)) :=
  [ ("Ki", (2^10 * 10^9, BinarySI)); ("Mi", (2^20 * 10^9, BinarySI));
    ("Gi", (2^30 * 10^9, BinarySI)); ("Ti", (2^40 * 10^9, BinarySI));
    ("Pi", (2^50 * 10^9, BinarySI)); ("Ei", (2^60 * 10^9, BinarySI));
    ("n", (1, DecimalSI)); ("u", (10^3, DecimalSI)); ("m", (10^6, DecimalSI));
    ("", (10^9, DecimalSI)); ("k", (10^12, DecimalSI)); ("M", (10^15, DecimalSI));
    ("G", (10^18, DecimalSI)); ("T", (10^21, DecimalSI)); ("P", (10^24, DecimalSI));
    ("E", (10^27, DecimalSI)) ].

Fixpoint assoc {A} (k : string) (l : list (string * A)) : option A :=
  match l with
  | [] => None
  | (k', v) :: rest => if bool_decide (k = k') then Some v else assoc k rest
  end.

(** Modelled from the spec: [resource.ParseQuantity] belongs to the platform's
    library and is not among the sources; section 4.1 only says that an
    unparsable resource quantity is an error.  The model reads the grammar's
    [<digits><suffix>] form, which is the form of the two constants the builder
    parses; fractions, signs and exponents are not read and count as a format
    error here, and the library's cap at 2^63-1 is left out. *)
Definition ParseQuantity (s : string) : error + Quantity.t :=
  match parseDigits s None with
  | (Some n, suffix) =>
      match assoc suffix quantitySuffixes with
      | Some (scale, fmt) => inr (Quantity.mk (n * scale) fmt)
      | None => inl (ErrQuantityFormat s)
      end
  | (None, _) => inl (ErrQuantityFormat s)
  end.

(** [ResourceList.Memory]: the "memory" entry, or a zero quantity. *)
Definition Memory (rl : gmap string Quantity.t) : Quantity.t :=
  default (Quantity.mk 0 BinarySI) (rl !! "memory").

(** ** controllerutil.SetControllerReference *)

Fixpoint before_slash (s : string) : option string :=
  match s with
  | EmptyString => None
  | String c rest =>
      if bool_decide (c = "/"%char) then Some EmptyString
      else String c <$> before_slash rest
  end.

(** The API group of an [apiVersion] text: what stands before the slash, and
    the empty (core) group when there is none. *)
Definition apiGroup (apiVersion : string) : string :=
  default "" (before_slash apiVersion).

Definition GroupVersionString (gvk : GroupVersionKind.t) : string :=
  if bool_decide (GroupVersionKind.Group gvk = "")
  then GroupVersionKind.Version gvk
  else GroupVersionKind.Group gvk +:+ "/" +:+ GroupVersionKind.Version gvk.

Definition GVKForObject (scheme : Scheme.t) : error + GroupVersionKind.t :=
  match Scheme.ObjectKinds scheme with
  | [] => inl ErrNoKindRegistered
  | [gvk] => inr gvk
  | _ => inl ErrAmbiguousKind
  end.

Definition validateOwner (ownerNs objNs : string) : option error :=
  if bool_decide (ownerNs = "") then None
  else if bool_decide (objNs = "") then Some (ErrClusterScopedObject ownerNs)
  else if bool_decide (ownerNs = objNs) then None
  else Some (ErrCrossNamespace ownerNs objNs).

Definition isController (r : OwnerReference.t) : bool :=
  bool_decide (OwnerReference.Controller r = Some true).

(** [metav1.GetControllerOf]: the first reference flagged as controller. *)
Definition GetControllerOf (refs : list OwnerReference.t) : option OwnerReference.t :=
  List.find isController refs.

Definition referSameObject (a b : OwnerReference.t) : bool :=
  bool_decide (apiGroup (OwnerReference.APIVersion a) = apiGroup (OwnerReference.APIVersion b))
  && bool_decide (OwnerReference.Kind a = OwnerReference.Kind b)
  && bool_decide (OwnerReference.Name a = OwnerReference.Name b).

Fixpoint indexOwnerRef (refs : list OwnerReference.t) (ref : OwnerReference.t) : option nat :=
  match refs with
  | [] => None
  | r :: rest =>
      if referSameObject r ref then Some O
      else S <$> indexOwnerRef rest ref
  end.

Definition upsertOwnerRef (ref : OwnerReference.t) (refs : list OwnerReference.t)
  : list OwnerReference.t :=
  match indexOwnerRef refs ref with
  | None => refs ++ [ref]
  | Some idx => <[idx := ref]> refs
  end.

(** The reference the library builds for an owner of kind [gvk]. *)
Definition controllerRef (owner : RabbitmqCluster.t) (gvk : GroupVersionKind.t)
  : OwnerReference.t :=
  {| OwnerReference.APIVersion := GroupVersionString gvk;
     OwnerReference.Kind := GroupVersionKind.Kind gvk;
     OwnerReference.Name := RabbitmqCluster.Name owner;
     OwnerReference.UID := ObjectMeta.UID (RabbitmqCluster.Meta owner);
     OwnerReference.Controller := Some true;
     OwnerReference.BlockOwnerDeletion := Some true |}.

(** Modelled from the spec: [controllerutil.SetControllerReference] belongs to
    the controller library and is not among the sources.  Sections 3 and 4.1:
    every child carries a single controller-owner reference back to the
    instance, and failing to set it is an error of the build or update.  The
    model follows the library's steps: the owner must be allowed to own the
    object (namespaces), its kind must be registered in the scheme, an object
    already controlled by somebody else is refused, and otherwise the reference
    replaces the one to the same owner or is appended.  The object's metadata
    is changed only on success. *)
Definition SetControllerReference (owner : RabbitmqCluster.t)
    (controlled : ObjectMeta.t) (scheme : Scheme.t) : error + ObjectMeta.t :=
  match validateOwner (RabbitmqCluster.Namespace owner) (ObjectMeta.Namespace controlled) with
  | Some err => inl err
  | None =>
      match GVKForObject scheme with
      | inl err => inl err
      | inr gvk =>
          let ref := controllerRef owner gvk in
          let refs := ObjectMeta.OwnerReferences controlled in
          match GetControllerOf refs with
          | Some existing =>
              if referSameObject existing ref
              then inr (ObjectMeta.with_OwnerReferences (upsertOwnerRef ref refs) controlled)
              else inl (ErrAlreadyOwned existing)
          | None => inr (ObjectMeta.with_OwnerReferences (upsertOwnerRef ref refs) controlled)
          end
      end
  end.

(** ** What the builder takes from the rest of the repository *)

(** The names and label functions that [statefulset.go] uses and that are
    declared in other files of the repository: five constants of package
    [resource], the three label functions of package [metadata], and the set
    of annotation keys the controller manages.  They are parameters: every
    property below holds whatever their values are. *)
Class Package := {
  headlessServiceName : string;
  serviceAccountName : string;
  adminSecretName : string;
  serverConfigMapName : string;
  erlangCookieName : string;
  Label : string -> gmap string string;
  GetLabels : string -> gmap string string -> gmap string string;
  LabelSelector : string -> gmap string string;
  managedAnnotation : string -> bool
}.

(** Modelled from the spec: [RabbitmqCluster.ChildResourceName] is declared
    in the API package, which is not among the sources.  Section 6 names a
    child object [<instance>-<component>-<suffix>]; the component is spelled
    [rabbitmq] by the command-line wrapper, which addresses the admin secret
    as [<instance>-rabbitmq-admin], the client service as
    [<instance>-rabbitmq-client] and the pods of the workload as
    [<instance>-rabbitmq-server-<ordinal>]. *)
Definition ChildResourceName (cluster : RabbitmqCluster.t) (name : string) : string :=
  String.concat "-" [RabbitmqCluster.Name cluster; "rabbitmq"; name].

Section Metadata.
Context `{Package}.

(** Modelled from the spec: [metadata.ReconcileAnnotations] is declared in
    package [metadata], which is not among the sources.  Section 4.4: a
    controller-managed key always takes the current computed value (and is
    removed when it is no longer desired); any other existing key is
    preserved untouched. *)
Definition ReconcileAnnotations (existing desired : gmap string string)
  : gmap string string :=
  filter (fun kv => managedAnnotation kv.1 = true) desired
  ∪ filter (fun kv => managedAnnotation kv.1 = false) existing.

End Metadata.

(** ** The monad of the builder's methods *)

(** What a method can change: the StatefulSet it was handed (by pointer) and
    the controller's log. *)
Record Heap := mkHeap { target : StatefulSet.t; logged : list LogLine }.

(** A method ends by falling through with a value, by returning an error, or
    by panicking; in the first two cases the heap is as the method left it. *)
Inductive Res (A : Type) :=
| Ok (a : A) (h : Heap)
| Err (e : error) (h : Heap)
| Panic (why : string).
Arguments Ok {A} a h.
Arguments Err {A} e h.
Arguments Panic {A} why.

Definition M (A : Type) : Type := Heap -> Res A.

Definition ret {A} (a : A) : M A := fun h => Ok a h.

Definition bind {A B} (m : M A) (k : A -> M B) : M B :=
  fun h =>
    match m h with
    | Ok a h' => k a h'
    | Err e h' => Err e h'
    | Panic why => Panic why
    end.

Declare Scope go_scope.
Delimit Scope go_scope with go.
Notation "'let*' x ':=' m 'in' k" := (bind m (fun x => k))
  (at level 10, x name, m at level 100, k at level 200, only parsing) : go_scope.
Notation "'run' m 'in' k" := (bind m (fun _ => k))
  (at level 10, m at level 100, k at level 200, only parsing) : go_scope.

Definition getTarget : M StatefulSet.t := fun h => Ok (target h) h.
Definition modify (f : StatefulSet.t -> StatefulSet.t) : M unit :=
  fun h => Ok tt (mkHeap (f (target h)) (logged h)).
Definition fail {A} (e : error) : M A := fun h => Err e h.
Definition panic {A} (why : string) : M A := fun _ => Panic why.
Definition LogInfo (names : list string) (msg : string) : M unit :=
  fun h => Ok tt (mkHeap (target h) (logged h ++ [mkLogLine names msg])).

(** [*p]: a nil pointer dereference panics. *)
Definition deref {A} (p : option A) : M A :=
  match p with
  | Some a => ret a
  | None => panic "invalid memory address or nil pointer dereference"
  end.

(** [if err != nil { return err }] *)
Definition try {A} (r : error + A) : M A :=
  match r with
  | inl err => fail err
  | inr a => ret a
  end.

(** ** Paths into the StatefulSet *)

Definition overMeta (f : ObjectMeta.t -> ObjectMeta.t) (s : StatefulSet.t) : StatefulSet.t :=
  StatefulSet.with_Meta (f (StatefulSet.Meta s)) s.
Definition overSpec (f : StatefulSetSpec.t -> StatefulSetSpec.t) (s : StatefulSet.t)
  : StatefulSet.t :=
  StatefulSet.with_Spec (f (StatefulSet.Spec s)) s.
Definition Template (s : StatefulSet.t) : PodTemplateSpec.t :=
  StatefulSetSpec.Template (StatefulSet.Spec s).
Definition overTemplate (f : PodTemplateSpec.t -> PodTemplateSpec.t) (s : StatefulSet.t)
  : StatefulSet.t :=
  overSpec (fun sp => StatefulSetSpec.with_Template (f (StatefulSetSpec.Template sp)) sp) s.
Definition overPodSpec (f : PodSpec.t -> PodSpec.t) (s : StatefulSet.t) : StatefulSet.t :=
  overTemplate (fun t => PodTemplateSpec.with_Spec (f (PodTemplateSpec.Spec t)) t) s.
Definition podSpec (s : StatefulSet.t) : PodSpec.t := PodTemplateSpec.Spec (Template s).

(** [sts.Spec.Template.Spec.InitContainers[i].<field> = ...]: indexing a slice
    past its end panics. *)
Definition assignInitContainer (i : nat) (f : Container.t -> Container.t) : M unit :=
  (let* sts := getTarget in
   let cs := PodSpec.InitContainers (podSpec sts) in
   match cs !! i with
   | None => panic "index out of range"
   | Some c => modify (overPodSpec (PodSpec.with_InitContainers (<[i := f c]> cs)))
   end)%go.

Definition assignContainer (i : nat) (f : Container.t -> Container.t) : M unit :=
  (let* sts := getTarget in
   let cs := PodSpec.Containers (podSpec sts) in
   match cs !! i with
   | None => panic "index out of range"
   | Some c => modify (overPodSpec (PodSpec.with_Containers (<[i := f c]> cs)))
   end)%go.

Definition readContainer (i : nat) : M Container.t :=
  (let* sts := getTarget in
   match PodSpec.Containers (podSpec sts) !! i with
   | None => panic "index out of range"
   | Some c => ret c
   end)%go.

(** ** statefulset.go *)

Definition defaultGracePeriodTimeoutSeconds : Z := 60 * 60 * 24 * 7.
Definition initContainerCPU : string := "100m".
Definition initContainerMemory : string := "500Mi".

Module StatefulSetBuilder.
Record t := mk { Instance : RabbitmqCluster.t; Scheme : Scheme.t }.
End StatefulSetBuilder.

(** The double quote, for the one message that quotes a name. *)
Definition dquote : string :=
  String (Ascii false true false false false true false false) EmptyString.

(** The pre-stop command of the broker container, as the builder writes it. *)
Definition preStopScript : string :=
  "while true; do rabbitmq-queues check_if_node_is_quorum_critical" +:+
  " 2>&1; if [ $(echo $?) -eq 69 ]; then sleep 2; continue; fi;" +:+
  " rabbitmq-queues check_if_node_is_mirror_sync_critical" +:+
  " 2>&1; if [ $(echo $?) -eq 69 ]; then sleep 2; continue; fi; break;" +:+
  " done".

Definition fieldRefEnv (name path : string) : EnvVar.t :=
  {| EnvVar.Name := name;
     EnvVar.Value := "";
     EnvVar.ValueFrom :=
       Some {| EnvVarSource.FieldRef :=
                 Some {| ObjectFieldSelector.FieldPath := path;
                         ObjectFieldSelector.APIVersion := "v1" |} |} |}.

Definition valueEnv (name value : string) : EnvVar.t :=
  {| EnvVar.Name := name; EnvVar.Value := value; EnvVar.ValueFrom := None |}.

Definition emptyDirVolume (name : string) : Volume.t :=
  {| Volume.Name := name;
     Volume.VolumeSource_ :=
       {| VolumeSource.Secret := None;
          VolumeSource.ConfigMap := None;
          VolumeSource.EmptyDir := Some {| EmptyDirVolumeSource.Medium := "" |} |} |}.

Definition secretVolume (name secretName : string) (items : list KeyToPath.t) : Volume.t :=
  {| Volume.Name := name;
     Volume.VolumeSource_ :=
       {| VolumeSource.Secret :=
            Some {| SecretVolumeSource.SecretName := secretName;
                    SecretVolumeSource.Items := items |};
          VolumeSource.ConfigMap := None;
          VolumeSource.EmptyDir := None |} |}.

Definition configMapVolume (name configMapName : string) : Volume.t :=
  {| Volume.Name := name;
     Volume.VolumeSource_ :=
       {| VolumeSource.Secret := None;
          VolumeSource.ConfigMap :=
            Some {| ConfigMapVolumeSource.LocalObjectReference_ :=
                      {| LocalObjectReference.Name := configMapName |} |};
          VolumeSource.EmptyDir := None |} |}.

Section Builder.
Context `{Package}.

Definition copyConfigContainer : Container.t :=
  {| Container.Name := "copy-config";
     Container.Image := "";
     Container.Command :=
       [ "sh"; "-c";
         "cp /tmp/rabbitmq/rabbitmq.conf /etc/rabbitmq/rabbitmq.conf && echo '' >> /etc/rabbitmq/rabbitmq.conf ; " +:+
         "cp /tmp/erlang-cookie-secret/.erlang.cookie /var/lib/rabbitmq/.erlang.cookie " +:+
         "&& chown 999:999 /var/lib/rabbitmq/.erlang.cookie " +:+
         "&& chmod 600 /var/lib/rabbitmq/.erlang.cookie" ];
     Container.Env := [];
     Container.Ports := [];
     Container.Resources := ResourceRequirements.zero;
     Container.VolumeMounts :=
       [ VolumeMount.mk "server-conf" "/tmp/rabbitmq/";
         VolumeMount.mk "rabbitmq-etc" "/etc/rabbitmq/";
         VolumeMount.mk "rabbitmq-erlang-cookie" "/var/lib/rabbitmq/";
         VolumeMount.mk "erlang-cookie-secret" "/tmp/erlang-cookie-secret/" ];
     Container.ReadinessProbe := None;
     Container.Lifecycle_ := None |}.

Definition rabbitmqContainer (builder : StatefulSetBuilder.t) : Container.t :=
  {| Container.Name := "rabbitmq";
     Container.Image := "";
     Container.Command := [];
     Container.Env :=
       [ valueEnv "RABBITMQ_ENABLED_PLUGINS_FILE" "/opt/server-conf/enabled_plugins";
         valueEnv "RABBITMQ_DEFAULT_PASS_FILE" "/opt/rabbitmq-secret/password";
         valueEnv "RABBITMQ_DEFAULT_USER_FILE" "/opt/rabbitmq-secret/username";
         valueEnv "RABBITMQ_MNESIA_BASE" "/var/lib/rabbitmq/db";
         fieldRefEnv "MY_POD_NAME" "metadata.name";
         fieldRefEnv "MY_POD_NAMESPACE" "metadata.namespace";
         valueEnv "K8S_SERVICE_NAME"
           (ChildResourceName (StatefulSetBuilder.Instance builder) "headless");
         valueEnv "RABBITMQ_USE_LONGNAME" "true";
         valueEnv "RABBITMQ_NODENAME"
           "rabbit@$(MY_POD_NAME).$(K8S_SERVICE_NAME).$(MY_POD_NAMESPACE).svc.cluster.local";
         valueEnv "K8S_HOSTNAME_SUFFIX"
           ".$(K8S_SERVICE_NAME).$(MY_POD_NAMESPACE).svc.cluster.local" ];
     Container.Ports :=
       [ ContainerPort.mk "epmd" 4369;
         ContainerPort.mk "amqp" 5672;
         ContainerPort.mk "http" 15672;
         ContainerPort.mk "prometheus" 15692 ];
     Container.Resources := ResourceRequirements.zero;
     Container.VolumeMounts :=
       [ VolumeMount.mk "server-conf" "/opt/server-conf/";
         VolumeMount.mk "rabbitmq-admin" "/opt/rabbitmq-secret/";
         VolumeMount.mk "persistence" "/var/lib/rabbitmq/db/";
         VolumeMount.mk "rabbitmq-etc" "/etc/rabbitmq/";
         VolumeMount.mk "rabbitmq-erlang-cookie" "/var/lib/rabbitmq/" ];
     Container.ReadinessProbe :=
       Some {| Probe.Handler_ :=
                 {| Handler.Exec :=
                      Some {| ExecAction.Command :=
                                [ "/bin/sh"; "-c";
                                  "rabbitmq-diagnostics check_port_connectivity" ] |} |};
               Probe.InitialDelaySeconds := 10;
               Probe.TimeoutSeconds := 5;
               Probe.PeriodSeconds := 30;
               Probe.SuccessThreshold := 1;
               Probe.FailureThreshold := 3 |};
     Container.Lifecycle_ :=
       Some {| Lifecycle.PostStart := None;
               Lifecycle.PreStop :=
                 Some {| Handler.Exec :=
                           Some {| ExecAction.Command :=
                                     [ "/bin/bash"; "-c"; preStopScript ] |} |} |} |}.

Definition podTemplateSpec (builder : StatefulSetBuilder.t) : PodTemplateSpec.t :=
  let automountServiceAccountToken := true in
  let rabbitmqGID := 999 in
  let rabbitmqUID := 999 in
  let terminationGracePeriod := defaultGracePeriodTimeoutSeconds in
  let instance := StatefulSetBuilder.Instance builder in
  {| PodTemplateSpec.Meta := ObjectMeta.zero;
     PodTemplateSpec.Spec :=
       {| PodSpec.SecurityContext :=
            Some {| PodSecurityContext.FSGroup := Some rabbitmqGID;
                    PodSecurityContext.RunAsGroup := Some rabbitmqGID;
                    PodSecurityContext.RunAsUser := Some rabbitmqUID |};
          PodSpec.TerminationGracePeriodSeconds := Some terminationGracePeriod;
          PodSpec.ServiceAccountName := ChildResourceName instance serviceAccountName;
          PodSpec.AutomountServiceAccountToken := Some automountServiceAccountToken;
          PodSpec.InitContainers := [ copyConfigContainer ];
          PodSpec.Containers := [ rabbitmqContainer builder ];
          PodSpec.Volumes :=
            [ secretVolume "rabbitmq-admin" (ChildResourceName instance adminSecretName)
                [ KeyToPath.mk "username" "username";
                  KeyToPath.mk "password" "password" ];
              configMapVolume "server-conf" (ChildResourceName instance serverConfigMapName);
              emptyDirVolume "rabbitmq-etc";
              emptyDirVolume "rabbitmq-erlang-cookie";
              secretVolume "erlang-cookie-secret"
                (ChildResourceName instance erlangCookieName) [] ];
          PodSpec.ImagePullSecrets := [];
          PodSpec.Affinity_ := None;
          PodSpec.Tolerations := [];
          PodSpec.DNSPolicy := "";
          PodSpec.PriorityClassName := "" |} |}.

(** [persistentVolumeClaim]: the claim list and the error, or a panic when
    [instance.Spec.Persistence.Storage] is nil (the literal dereferences it
    before anything else can fail). *)
Definition persistentVolumeClaim (instance : RabbitmqCluster.t) (scheme : Scheme.t)
  : option (list PersistentVolumeClaim.t * option error) :=
  match RabbitmqClusterPersistenceSpec.Storage
          (RabbitmqClusterSpec.Persistence (RabbitmqCluster.Spec instance)) with
  | None => None
  | Some storage =>
      let pvc :=
        {| PersistentVolumeClaim.Meta :=
             {| ObjectMeta.Name := "persistence";
                ObjectMeta.Namespace := RabbitmqCluster.Namespace instance;
                ObjectMeta.UID := "";
                ObjectMeta.ResourceVersion := "";
                ObjectMeta.CreationTimestamp := "";
                ObjectMeta.Labels := Label (RabbitmqCluster.Name instance);
                ObjectMeta.Annotations :=
                  ReconcileAnnotations ∅ (RabbitmqCluster.Annotations instance);
                ObjectMeta.OwnerReferences := [] |};
           PersistentVolumeClaim.Spec :=
             {| PersistentVolumeClaimSpec.Resources :=
                  {| ResourceRequirements.Limits := ∅;
                     ResourceRequirements.Requests := {[ "storage" := storage ]} |};
                PersistentVolumeClaimSpec.AccessModes := [ ReadWriteOnce ];
                PersistentVolumeClaimSpec.StorageClassName :=
                  RabbitmqClusterPersistenceSpec.StorageClassName
                    (RabbitmqClusterSpec.Persistence (RabbitmqCluster.Spec instance)) |} |} in
      match SetControllerReference instance (PersistentVolumeClaim.Meta pvc) scheme with
      | inl err =>
          Some ([], Some (Errorf "failed setting controller reference: " err))
      | inr meta =>
          Some ([ PersistentVolumeClaim.mk meta (PersistentVolumeClaim.Spec pvc) ], None)
      end
  end.

(** What [Build] hands back: an object, an error, or a panic. *)
Inductive Built :=
| BuiltObject (object : Object)
| BuildError (err : error)
| BuildPanic (why : string).

Definition statefulSet (builder : StatefulSetBuilder.t) : option (error + StatefulSet.t) :=
  let instance := StatefulSetBuilder.Instance builder in
  match persistentVolumeClaim instance (StatefulSetBuilder.Scheme builder) with
  | None => None
  | Some (_, Some err) => Some (inl err)
  | Some (pvc, None) =>
      Some (inr
        {| StatefulSet.Meta :=
             {| ObjectMeta.Name := ChildResourceName instance "server";
                ObjectMeta.Namespace := RabbitmqCluster.Namespace instance;
                ObjectMeta.UID := "";
                ObjectMeta.ResourceVersion := "";
                ObjectMeta.CreationTimestamp := "";
                ObjectMeta.Labels := ∅;
                ObjectMeta.Annotations := ∅;
                ObjectMeta.OwnerReferences := [] |};
           StatefulSet.Spec :=
             {| StatefulSetSpec.Replicas := None;
                StatefulSetSpec.Selector :=
                  Some {| LabelSelector.MatchLabels :=
                            LabelSelector (RabbitmqCluster.Name instance) |};
                StatefulSetSpec.Template := PodTemplateSpec.mk ObjectMeta.zero PodSpec.zero;
                StatefulSetSpec.VolumeClaimTemplates := pvc;
                StatefulSetSpec.ServiceName := ChildResourceName instance headlessServiceName;
                StatefulSetSpec.PodManagementPolicy := "";
                StatefulSetSpec.RevisionHistoryLimit := None |};
           StatefulSet.Status := StatefulSetStatus.zero |})
  end.

Definition Build (builder : StatefulSetBuilder.t) : Built :=
  match statefulSet builder with
  | None => BuildPanic "invalid memory address or nil pointer dereference"
  | Some (inl err) => BuildError err
  | Some (inr sts) => BuiltObject (ObjStatefulSet sts)
  end.

Definition memoryWarning (name : string) : string :=
  "Warning: Memory request and limit are not equal for " +:+ dquote +:+ name +:+ dquote
  +:+ ". It is recommended that they be set to the same value".

Definition setStatefulSetParams (builder : StatefulSetBuilder.t) : M unit :=
  let instance := StatefulSetBuilder.Instance builder in
  let spec := RabbitmqCluster.Spec instance in
  (let* sts := getTarget in
   run match SetControllerReference instance (StatefulSet.Meta sts)
               (StatefulSetBuilder.Scheme builder) with
       | inl err => fail (Errorf "failed setting controller reference: " err)
       | inr meta => modify (StatefulSet.with_Meta meta)
       end in
   (* Labels *)
   let updatedLabels :=
     GetLabels (RabbitmqCluster.Name instance) (RabbitmqCluster.Labels instance) in
   run modify (overMeta (ObjectMeta.with_Labels updatedLabels)) in
   run modify (overTemplate (fun t =>
         PodTemplateSpec.with_Meta
           (ObjectMeta.with_Labels updatedLabels (PodTemplateSpec.Meta t)) t)) in
   (* Replicas *)
   let replicas := RabbitmqClusterSpec.Replicas spec in
   run modify (overSpec (StatefulSetSpec.with_Replicas (Some replicas))) in
   (* Init Container resources *)
   let* cpuRequest := try (ParseQuantity initContainerCPU) in
   let* memoryRequest := try (ParseQuantity initContainerMemory) in
   (* Container resources *)
   run assignInitContainer 0 (Container.with_Resources
         {| ResourceRequirements.Limits :=
              {[ "cpu" := cpuRequest; "memory" := memoryRequest ]};
            ResourceRequirements.Requests :=
              {[ "cpu" := cpuRequest; "memory" := memoryRequest ]} |}) in
   let* resources := deref (RabbitmqClusterSpec.Resources spec) in
   run assignContainer 0 (Container.with_Resources resources) in
   let* c := readContainer 0 in
   run (if negb (Quantity.Equal
                   (Memory (ResourceRequirements.Limits (Container.Resources c)))
                   (Memory (ResourceRequirements.Requests (Container.Resources c))))
        then
          let* sts' := getTarget in
          LogInfo ["statefulset"; "RabbitmqCluster"]
            (memoryWarning (ObjectMeta.Name (StatefulSet.Meta sts')))
        else ret tt) in
   (* Container images *)
   run assignInitContainer 0 (Container.with_Image (RabbitmqClusterSpec.Image spec)) in
   run assignContainer 0 (Container.with_Image (RabbitmqClusterSpec.Image spec)) in
   (* Image Pull Secret *)
   run modify (overPodSpec (PodSpec.with_ImagePullSecrets [])) in
   run (if bool_decide (RabbitmqClusterSpec.ImagePullSecret spec <> "")
        then modify (overPodSpec (fun p =>
               PodSpec.with_ImagePullSecrets
                 (PodSpec.ImagePullSecrets p ++
                    [ LocalObjectReference.mk (RabbitmqClusterSpec.ImagePullSecret spec) ]) p))
        else ret tt) in
   (* Affinity & Tolerations *)
   run modify (overPodSpec (PodSpec.with_Affinity (RabbitmqClusterSpec.Affinity_ spec))) in
   run modify (overPodSpec (PodSpec.with_Tolerations (RabbitmqClusterSpec.Tolerations spec))) in
   ret tt)%go.

(** The body of [Update] once the object is known to be a StatefulSet. *)
Definition updateStatefulSet (builder : StatefulSetBuilder.t) : M unit :=
  let instance := StatefulSetBuilder.Instance builder in
  (let* sts := getTarget in
   let podAnnotations :=
     ReconcileAnnotations (ObjectMeta.Annotations (PodTemplateSpec.Meta (Template sts)))
       (RabbitmqCluster.Annotations instance) in
   let annotations :=
     ReconcileAnnotations (ObjectMeta.Annotations (StatefulSet.Meta sts))
       (RabbitmqCluster.Annotations instance) in
   run modify (overTemplate (fun _ => podTemplateSpec builder)) in
   run modify (overTemplate (fun t =>
         PodTemplateSpec.with_Meta
           (ObjectMeta.with_Annotations podAnnotations (PodTemplateSpec.Meta t)) t)) in
   run modify (overMeta (ObjectMeta.with_Annotations annotations)) in
   setStatefulSetParams builder)%go.

(** [Update]: the type assertion of [object] to a StatefulSet pointer has no
    comma-ok form, so any other object panics.  The call starts with an empty
    log; the heap of the result holds the object as the caller sees it
    afterwards and the lines this call logged. *)
Definition Update (builder : StatefulSetBuilder.t) (object : Object) : Res unit :=
  match object with
  | ObjStatefulSet sts => updateStatefulSet builder (mkHeap sts [])
  | _ => Panic "interface conversion: runtime.Object is not *v1.StatefulSet"
  end.

End Builder.

(** ** The pre-stop hook as a transition system *)

(** The two safety checks the script invokes. *)
Inductive Check := QuorumCritical | MirrorSyncCritical.

(** The exit code reserved for "critical, do not proceed yet". *)
Definition sentinel : Z := 69.

(** What the script does to the outside: it runs a check, which answers with
    an exit code, or it sleeps. *)
Inductive Event :=
| Invoke (check : Check) (exitCode : Z)
| Sleep (seconds : Z).

(** The control points of [preStopScript]: at the first command of the loop
    body, at the second one, inside a [then sleep 2; continue] branch, and
    after [break]. *)
Inductive Loc := AtQuorumCheck | AtMirrorCheck | Sleeping | Returned.

Inductive step : Loc -> Event -> Loc -> Prop :=
| step_quorum_critical code :
    code = sentinel -> step AtQuorumCheck (Invoke QuorumCritical code) Sleeping
| step_quorum_clear code :
    code <> sentinel -> step AtQuorumCheck (Invoke QuorumCritical code) AtMirrorCheck
| step_mirror_critical code :
    code = sentinel -> step AtMirrorCheck (Invoke MirrorSyncCritical code) Sleeping
| step_mirror_clear code :
    code <> sentinel -> step AtMirrorCheck (Invoke MirrorSyncCritical code) Returned
| step_sleep :
    step Sleeping (Sleep 2) AtQuorumCheck.

(** Runs of the hook, with the events in the order they happen. *)
Inductive steps : Loc -> list Event -> Loc -> Prop :=
| steps_refl l : steps l [] l
| steps_cons l e l' tr l'' : step l e l' -> steps l' tr l'' -> steps l (e :: tr) l''.

(** The same script run against a diagnostic tool whose answers are given:
    [diagnostic n check] is the exit code of the invocation number [n]
    (counted from zero over both checks).  [None] when the fuel runs out
    before the script returns. *)
Fixpoint preStop (fuel : nat) (diagnostic : nat -> Check -> Z) (n : nat) (at_ : Loc)
  : option (list Event) :=
  match at_, fuel with
  | Returned, _ => Some []
  | _, O => None
  | AtQuorumCheck, S fuel' =>
      let code := diagnostic n QuorumCritical in
      cons (Invoke QuorumCritical code) <$>
        preStop fuel' diagnostic (S n) (if (code =? sentinel)%Z then Sleeping else AtMirrorCheck)
  | AtMirrorCheck, S fuel' =>
      let code := diagnostic n MirrorSyncCritical in
      cons (Invoke MirrorSyncCritical code) <$>
        preStop fuel' diagnostic (S n) (if (code =? sentinel)%Z then Sleeping else Returned)
  | Sleeping, S fuel' =>
      cons (Sleep 2) <$> preStop fuel' diagnostic n AtQuorumCheck
  end.

Definition isInvocationOf (check : Check) (e : Event) : bool :=
  match e, check with
  | Invoke QuorumCritical _, QuorumCritical => true
  | Invoke MirrorSyncCritical _, MirrorSyncCritical => true
  | _, _ => false
  end.

Definition invocations (check : Check) (tr : list Event) : nat :=
  length (List.filter (isInvocationOf check) tr).

(** A diagnostic that answers the sentinel twice and succeeds from then on. *)
Definition criticalTwice : nat -> Check -> Z :=
  fun n _ => if (n <? 2)%nat then sentinel else 0.

(** ** The environment of the broker container, resolved for a pod *)

Fixpoint hasCloser (s : string) : bool :=
  match s with
  | EmptyString => false
  | String c rest => bool_decide (c = ")"%char) || hasCloser rest
  end.

(** Modelled from the spec: the expansion of [$(NAME)] references in the value
    of an environment variable is done by the platform when it starts the
    container and is not among the sources; section 4.2 gives its result for
    the node identity, [<pod>.<discovery-endpoint>.<namespace>] in place of
    the three references.  [pending] holds the name being read after [$(];
    a doubled operator stands for itself, and a reference that is never
    closed is left as written. *)
Fixpoint Expand (mapping : string -> string) (input : string) (pending : option string)
  : string :=
  match input with
  | EmptyString => ""
  | String c rest =>
      match pending with
      | Some name =>
          if bool_decide (c = ")"%char) then mapping name +:+ Expand mapping rest None
          else Expand mapping rest (Some (name +:+ String c EmptyString))
      | None =>
          if bool_decide (c = "$"%char) then
            match rest with
            | EmptyString => "$"
            | String c' rest' =>
                if bool_decide (c' = "$"%char) then String "$" (Expand mapping rest' None)
                else if bool_decide (c' = "("%char) then
                  if hasCloser rest' then Expand mapping rest' (Some "")
                  else "$(" +:+ Expand mapping rest' None
                else String "$" (String c' (Expand mapping rest' None))
            end
          else String c (Expand mapping rest None)
      end
  end.

(** A reference to a variable that is not defined is left as written. *)
Definition MappingFuncFor (vars : list (string * string)) (name : string) : string :=
  default ("$(" +:+ name +:+ ")") (assoc name vars).

(** The pod a container of the workload runs in. *)
Record Pod := mkPod { podName : string; podNamespace : string }.

Definition fieldRefValue (pod : Pod) (fieldPath : string) : string :=
  if bool_decide (fieldPath = "metadata.name") then podName pod
  else if bool_decide (fieldPath = "metadata.namespace") then podNamespace pod
  else "".

(** The variables are resolved in the order of the list; a value may refer to
    the variables before it. *)
Fixpoint resolveEnv (pod : Pod) (env : list EnvVar.t) (resolved : list (string * string))
  : list (string * string) :=
  match env with
  | [] => resolved
  | e :: rest =>
      let value :=
        if bool_decide (EnvVar.Value e <> "")
        then Expand (MappingFuncFor resolved) (EnvVar.Value e) None
        else match EnvVar.ValueFrom e with
             | Some (EnvVarSource.mk (Some f)) =>
                 fieldRefValue pod (ObjectFieldSelector.FieldPath f)
             | _ => ""
             end in
      resolveEnv pod rest ((EnvVar.Name e, value) :: resolved)
  end.

(** [lookupEnv]: the entry of an environment list with a given name. *)
Definition lookupEnv (name : string) (env : list EnvVar.t) : option EnvVar.t :=
  List.find (fun e => bool_decide (EnvVar.Name e = name)) env.

(** ** The object [Update] leaves behind, written out *)

(** [initContainerCPU] and [initContainerMemory] as quantities: a tenth of a
    CPU and 500 * 2^20 bytes. *)
Definition initContainerResources : ResourceRequirements.t :=
  let cpu := Quantity.mk (100 * 10^6) DecimalSI in
  let memory := Quantity.mk (500 * (2^20 * 10^9)) BinarySI in
  {| ResourceRequirements.Limits := {[ "cpu" := cpu; "memory" := memory ]};
     ResourceRequirements.Requests := {[ "cpu" := cpu; "memory" := memory ]} |}.

Section Expected.
Context `{Package}.

(** The object after the first five statements of [Update]: the pod template
    is the builder's, and both annotation maps are reconciled. *)
Definition reconciled (builder : StatefulSetBuilder.t) (sts : StatefulSet.t) : StatefulSet.t :=
  let desired := RabbitmqCluster.Annotations (StatefulSetBuilder.Instance builder) in
  {| StatefulSet.Meta :=
       ObjectMeta.with_Annotations
         (ReconcileAnnotations (ObjectMeta.Annotations (StatefulSet.Meta sts)) desired)
         (StatefulSet.Meta sts);
     StatefulSet.Spec :=
       StatefulSetSpec.with_Template
         {| PodTemplateSpec.Meta :=
              ObjectMeta.with_Annotations
                (ReconcileAnnotations
                   (ObjectMeta.Annotations (PodTemplateSpec.Meta (Template sts))) desired)
                ObjectMeta.zero;
            PodTemplateSpec.Spec := PodTemplateSpec.Spec (podTemplateSpec builder) |}
         (StatefulSet.Spec sts);
     StatefulSet.Status := StatefulSet.Status sts |}.

Definition desiredImagePullSecrets (spec : RabbitmqClusterSpec.t)
  : list LocalObjectReference.t :=
  if bool_decide (RabbitmqClusterSpec.ImagePullSecret spec <> "")
  then [ LocalObjectReference.mk (RabbitmqClusterSpec.ImagePullSecret spec) ]
  else [].

(** The pod specification once the parameters of the cluster are applied. *)
Definition desiredPodSpec (builder : StatefulSetBuilder.t) (resources : ResourceRequirements.t)
  : PodSpec.t :=
  let spec := RabbitmqCluster.Spec (StatefulSetBuilder.Instance builder) in
  let image := RabbitmqClusterSpec.Image spec in
  PodSpec.with_Tolerations (RabbitmqClusterSpec.Tolerations spec)
    (PodSpec.with_Affinity (RabbitmqClusterSpec.Affinity_ spec)
       (PodSpec.with_ImagePullSecrets (desiredImagePullSecrets spec)
          (PodSpec.with_Containers
             [ Container.with_Image image
                 (Container.with_Resources resources (rabbitmqContainer builder)) ]
             (PodSpec.with_InitContainers
                [ Container.with_Image image
                    (Container.with_Resources initContainerResources copyConfigContainer) ]
                (PodTemplateSpec.Spec (podTemplateSpec builder)))))).

(** The object after [setStatefulSetParams] ran to its end on [sts], [meta]
    being the metadata with the controller reference set. *)
Definition completed (builder : StatefulSetBuilder.t) (meta : ObjectMeta.t)
    (resources : ResourceRequirements.t) (sts : StatefulSet.t) : StatefulSet.t :=
  let instance := StatefulSetBuilder.Instance builder in
  let labels := GetLabels (RabbitmqCluster.Name instance) (RabbitmqCluster.Labels instance) in
  {| StatefulSet.Meta := ObjectMeta.with_Labels labels meta;
     StatefulSet.Spec :=
       StatefulSetSpec.with_Replicas
         (Some (RabbitmqClusterSpec.Replicas (RabbitmqCluster.Spec instance)))
         (StatefulSetSpec.with_Template
            {| PodTemplateSpec.Meta :=
                 ObjectMeta.with_Labels labels (PodTemplateSpec.Meta (Template sts));
               PodTemplateSpec.Spec := desiredPodSpec builder resources |}
            (StatefulSet.Spec sts));
     StatefulSet.Status := StatefulSet.Status sts |}.

(** The lines one call of [Update] logs. *)
Definition memoryWarnings (resources : ResourceRequirements.t) (name : string)
  : list LogLine :=
  if Quantity.Equal (Memory (ResourceRequirements.Limits resources))
                    (Memory (ResourceRequirements.Requests resources))
  then []
  else [ mkLogLine ["statefulset"; "RabbitmqCluster"] (memoryWarning name) ].

(** The builder for the same cluster with another replica count. *)
Definition withReplicas (n : Z) (builder : StatefulSetBuilder.t) : StatefulSetBuilder.t :=
  let instance := StatefulSetBuilder.Instance builder in
  let spec := RabbitmqCluster.Spec instance in
  StatefulSetBuilder.mk
    (RabbitmqCluster.mk (RabbitmqCluster.Meta instance)
       (RabbitmqClusterSpec.mk n (RabbitmqClusterSpec.Image spec)
          (RabbitmqClusterSpec.ImagePullSecret spec) (RabbitmqClusterSpec.Resources spec)
          (RabbitmqClusterSpec.Persistence spec) (RabbitmqClusterSpec.Affinity_ spec)
          (RabbitmqClusterSpec.Tolerations spec)))
    (StatefulSetBuilder.Scheme builder).

(** The claim template [persistentVolumeClaim] builds for a cluster whose
    storage size is [storage] and whose kind is registered as [gvk]. *)
Definition claimTemplate (instance : RabbitmqCluster.t) (storage : Quantity.t)
    (gvk : GroupVersionKind.t) : PersistentVolumeClaim.t :=
  {| PersistentVolumeClaim.Meta :=
       {| ObjectMeta.Name := "persistence";
          ObjectMeta.Namespace := RabbitmqCluster.Namespace instance;
          ObjectMeta.UID := "";
          ObjectMeta.ResourceVersion := "";
          ObjectMeta.CreationTimestamp := "";
          ObjectMeta.Labels := Label (RabbitmqCluster.Name instance);
          ObjectMeta.Annotations :=
            ReconcileAnnotations ∅ (RabbitmqCluster.Annotations instance);
          ObjectMeta.OwnerReferences := [ controllerRef instance gvk ] |};
     PersistentVolumeClaim.Spec :=
       {| PersistentVolumeClaimSpec.Resources :=
            {| ResourceRequirements.Limits := ∅;
               ResourceRequirements.Requests := {[ "storage" := storage ]} |};
          PersistentVolumeClaimSpec.AccessModes := [ ReadWriteOnce ];
          PersistentVolumeClaimSpec.StorageClassName :=
            RabbitmqClusterPersistenceSpec.StorageClassName
              (RabbitmqClusterSpec.Persistence (RabbitmqCluster.Spec instance)) |} |}.

(** The skeleton [statefulSet] returns around a list of claim templates. *)
Definition skeleton (builder : StatefulSetBuilder.t)
    (claims : list PersistentVolumeClaim.t) : StatefulSet.t :=
  let instance := StatefulSetBuilder.Instance builder in
  {| StatefulSet.Meta :=
       ObjectMeta.mk (ChildResourceName instance "server")
         (RabbitmqCluster.Namespace instance) "" "" "" ∅ ∅ [];
     StatefulSet.Spec :=
       {| StatefulSetSpec.Replicas := None;
          StatefulSetSpec.Selector :=
            Some (LabelSelector.mk (LabelSelector (RabbitmqCluster.Name instance)));
          StatefulSetSpec.Template := PodTemplateSpec.mk ObjectMeta.zero PodSpec.zero;
          StatefulSetSpec.VolumeClaimTemplates := claims;
          StatefulSetSpec.ServiceName := ChildResourceName instance headlessServiceName;
          StatefulSetSpec.PodManagementPolicy := "";
          StatefulSetSpec.RevisionHistoryLimit := None |};
     StatefulSet.Status := StatefulSetStatus.zero |}.

End Expected.

(** The heap a call left behind, when it returned at all. *)
Definition heapOf {A} (r : Res A) : option Heap :=
  match r with
  | Ok _ h | Err _ h => Some h
  | Panic _ => None
  end.

(** The port numbers a pod specification declares, over all its containers. *)
Definition declaredPorts (p : PodSpec.t) : list Z :=
  flat_map (fun c => map ContainerPort.ContainerPort (Container.Ports c))
           (PodSpec.InitContainers p ++ PodSpec.Containers p).

(** No character of the text is the reference operator [$]. *)
Fixpoint plain (s : string) : bool :=
  match s with
  | EmptyString => true
  | String c rest => negb (bool_decide (c = "$"%char)) && plain rest
  end.

(** The new list of owner references, or the error: the part of
    [SetControllerReference] that does not touch the rest of the metadata. *)
Definition controllerReferences (owner : RabbitmqCluster.t) (objNamespace : string)
    (refs : list OwnerReference.t) (scheme : Scheme.t) : error + list OwnerReference.t :=
  match SetControllerReference owner
          (ObjectMeta.mk "" objNamespace "" "" "" ∅ ∅ refs) scheme with
  | inl err => inl err
  | inr meta => inr (ObjectMeta.OwnerReferences meta)
  end.

(** ** The command-line wrapper *)

(** The names under which the wrapper script addresses the objects of an
    instance: the pod [observe INSTANCE NODE] (and, with node 0,
    [enable-all-feature-flags INSTANCE]) runs its command in, the admin
    secret and the client service of [get_instance_details]. *)
Module Wrapper.
Definition observe_pod (instance node : string) : string :=
  instance +:+ "-rabbitmq-server-" +:+ node.
Definition admin_secret (instance : string) : string :=
  instance +:+ "-rabbitmq-admin".
Definition client_service (instance : string) : string :=
  instance +:+ "-rabbitmq-client".
End Wrapper.

(** The platform names the pods of a StatefulSet after it: its name, a dash
    and the ordinal. *)
Definition podOf (statefulSetName ordinal : string) : string :=
  statefulSetName +:+ "-" +:+ ordinal.

(** ** The command-line wrapper: dispatch and manifest *)

(** The script runs under [set -euo pipefail]: a command that fails ends it,
    and so does a reference to a positional parameter that is not there. *)
Module Plugin.

Inductive Command :=
| PerfTest | Manage | List | Create | Delete | Get | Debug | Observe | Secrets
| EnableAllFeatureFlags | InstallClusterOperator.

(** What the script does with its arguments before any function runs. *)
Inductive Dispatch :=
| Run (command : Command) (args : list string)
| MissingInstance
| UsageError
| UsageOnly
| UnboundParameter.

(** The exit status the script ends with when no function was run. *)
Definition exitStatus (d : Dispatch) : option Z :=
  match d with
  | Run _ _ => None
  | MissingInstance | UsageError | UnboundParameter => Some 1
  | UsageOnly => Some 0
  end.

(** The bracket expression [[a-z-]], read in the C locale. *)
Definition lower_or_dash (c : ascii) : bool :=
  let n := nat_of_ascii c in
  ((97 <=? n)%nat && (n <=? 122)%nat) || (n =? 45)%nat.

(** The pattern of [perf-test], two dashes and one character of the class:
    somewhere in the text two dashes are followed by a lower-case letter or
    a dash (the match is not anchored). *)
Fixpoint looksLikeOption (s : string) : bool :=
  match s with
  | String a ((String b (String c _)) as rest) =>
      (bool_decide (a = "-"%char) && bool_decide (b = "-"%char) && lower_or_dash c)
      || looksLikeOption rest
  | _ => false
  end.

(** The pattern of [manage], two dashes and the class starred: the starred
    class may be empty, so two dashes anywhere are a match. *)
Fixpoint hasTwoDashes (s : string) : bool :=
  match s with
  | String a ((String b _) as rest) =>
      (bool_decide (a = "-"%char) && bool_decide (b = "-"%char)) || hasTwoDashes rest
  | _ => false
  end.

(** [main], after its [shift 1]: [rest] is what follows the command word. *)
Definition main (args : list string) : Dispatch :=
  match args with
  | [] => UnboundParameter
  | command :: rest =>
      if bool_decide (command = "perf-test") then
        match rest with
        | [] => MissingInstance
        | instance :: _ => if looksLikeOption instance then MissingInstance else Run PerfTest rest
        end
      else if bool_decide (command = "manage") then
        match rest with
        | [] => MissingInstance
        | instance :: _ => if hasTwoDashes instance then MissingInstance else Run Manage rest
        end
      else if bool_decide (command = "list") then Run List []
      else if bool_decide (command = "create") then
        if (length rest =? 0)%nat then UsageError else Run Create rest
      else if bool_decide (command = "delete") then
        if (length rest =? 0)%nat then UsageError else Run Delete rest
      else if bool_decide (command = "get") then
        if negb (length rest =? 1)%nat then UsageError else Run Get (take 1 rest)
      else if bool_decide (command = "debug") then
        if negb (length rest =? 1)%nat then UsageError else Run Debug (take 1 rest)
      else if bool_decide (command = "observe") then
        if negb (length rest =? 2)%nat then UsageError else Run Observe (take 2 rest)
      else if bool_decide (command = "secrets") then
        if negb (length rest =? 1)%nat then UsageError else Run Secrets (take 1 rest)
      else if bool_decide (command = "enable-all-feature-flags") then
        if negb (length rest =? 1)%nat then UsageError
        else Run EnableAllFeatureFlags (take 1 rest)
      else if bool_decide (command = "install-cluster-operator") then
        if (1 <? length rest)%nat then UsageError
        else Run InstallClusterOperator [default "" (head rest)]
      else UsageError
  end.

(** The last lines of the script: [main] when there is an argument, the
    usage text otherwise. *)
Definition script (args : list string) : Dispatch :=
  if (1 <=? length args)%nat then main args else UsageOnly.

(** The positional parameters a function of the script refers to without a
    default: [$1] and [$2] in [observe], none in [list], in [delete] (which
    goes through all of them) and in [install-cluster-operator], [$1] in the
    others. *)
Definition parametersRead (command : Command) : nat :=
  match command with
  | List | Delete | InstallClusterOperator => 0
  | Observe => 2
  | _ => 1
  end.

(** How [create] ends: [kubectl apply] ran on the manifest, or the script
    stopped at an unbound [$1] with the file as far as it was written. *)
Inductive Created :=
| Applied (manifest printed : list string)
| Unbound (manifest printed : list string).

Definition header (name : string) : list string :=
  [ "apiVersion: rabbitmq.com/v1beta1";
    "kind: RabbitmqCluster";
    "metadata:";
    "  name: " +:+ name;
    "spec:" ].

(** The [while] loop of [create] over the arguments after the name. *)
Fixpoint options (args : list string) (manifest printed : list string) : Created :=
  match args with
  | [] => Applied manifest printed
  | option :: rest =>
      if bool_decide (option = "--replicas") then
        match rest with
        | [] => Unbound manifest printed
        | value :: rest' => options rest' (manifest ++ [ "  replicas: " +:+ value ]) printed
        end
      else if bool_decide (option = "--service") then
        match rest with
        | [] => Unbound (manifest ++ [ "  service:" ]) printed
        | value :: rest' =>
            options rest' (manifest ++ [ "  service:"; "    type: " +:+ value ]) printed
        end
      else if bool_decide (option = "--image") then
        match rest with
        | [] => Unbound manifest printed
        | value :: rest' => options rest' (manifest ++ [ "  image: " +:+ value ]) printed
        end
      else if bool_decide (option = "--image-pull-secret") then
        match rest with
        | [] => Unbound manifest printed
        | value :: rest' =>
            options rest' (manifest ++ [ "  imagePullSecret: " +:+ value ]) printed
        end
      else if bool_decide (option = "--unlimited") then
        options rest
          (manifest ++ [ "  resources:"; "    requests: {}"; "    limits: {}" ]) printed
      else if bool_decide (option = "--tls-secret") then
        match rest with
        | [] => Unbound (manifest ++ [ "  tls:" ]) printed
        | value :: rest' =>
            options rest' (manifest ++ [ "  tls:"; "    secretName: " +:+ value ]) printed
        end
      else if bool_decide (option = "--storage-class") then
        match rest with
        | [] => Unbound (manifest ++ [ "  persistence:" ]) printed
        | value :: rest' =>
            options rest'
              (manifest ++ [ "  persistence:"; "    storageClassName: " +:+ value ]) printed
        end
      else
        options rest manifest (printed ++ [ "Option '" +:+ option +:+ "' not recongnised" ])
  end.

(** [create], its temporary directory taken to be there: the header, the
    default replica count when nothing follows the name, the options. *)
Definition create (args : list string) : Created :=
  match args with
  | [] => Unbound (take 3 (header "")) []
  | name :: rest =>
      match rest with
      | [] => options rest (header name ++ [ "  replicas: 1" ]) []
      | _ => options rest (header name) []
      end
  end.

(** The options [create] knows, and those of them that take a value. *)
Definition valueOptions : list string :=
  [ "--replicas"; "--service"; "--image"; "--image-pull-secret"; "--tls-secret";
    "--storage-class" ].


Definition install_cluster_operator (image : string) : list string :=
  [ "kubectl"; "apply"; "-f";
    "https://github.com/rabbitmq/cluster-operator/releases/latest/download/cluster-operator.yml" ].

End Plugin.

(** ** Measures on the pod specification and on runs of the hook *)

(** The names the volume mounts of all containers refer to, the names of
    the pod's volumes, and the names of the claim templates. *)
Definition mountedNames (p : PodSpec.t) : list string :=
  flat_map (fun c => map VolumeMount.Name (Container.VolumeMounts c))
           (PodSpec.InitContainers p ++ PodSpec.Containers p).
Definition volumeNames (p : PodSpec.t) : list string :=
  map Volume.Name (PodSpec.Volumes p).
Definition claimNames (s : StatefulSet.t) : list string :=
  map (fun pvc => ObjectMeta.Name (PersistentVolumeClaim.Meta pvc))
      (StatefulSetSpec.VolumeClaimTemplates (StatefulSet.Spec s)).

(** An object that differs from [sts] in the replica count, the labels of
    the object and of the pod template, and the pod specification. *)
Definition drifted (replicas : option Z) (labels templateLabels : gmap string string)
    (pod : PodSpec.t) (sts : StatefulSet.t) : StatefulSet.t :=
  overSpec (StatefulSetSpec.with_Replicas replicas)
    (overTemplate
       (fun t => PodTemplateSpec.mk
                   (ObjectMeta.with_Labels templateLabels (PodTemplateSpec.Meta t)) pod)
       (overMeta (ObjectMeta.with_Labels labels) sts)).

Definition isSentinelAnswer (e : Event) : bool :=
  match e with
  | Invoke _ code => (code =? sentinel)%Z
  | Sleep _ => false
  end.

(** The checks of a run that answered the sentinel, and the seconds slept. *)
Definition sentinelAnswers (tr : list Event) : nat :=
  length (List.filter isSentinelAnswer tr).
Fixpoint secondsSlept (tr : list Event) : Z :=
  match tr with
  | [] => 0
  | Sleep seconds :: rest => seconds + secondsSlept rest
  | Invoke _ _ :: rest => secondsSlept rest
  end.

(** ** Sample values *)

(** Values for the parameters of [Package], for running the builder on
    concrete inputs: the suffixes and the name label are the ones the
    command-line wrapper relies on. *)
Definition samplePackage : Package :=
  {| headlessServiceName := "headless";
     serviceAccountName := "server";
     adminSecretName := "admin";
     serverConfigMapName := "server-conf";
     erlangCookieName := "erlang-cookie";
     Label := fun name => {[ "app.kubernetes.io/name" := name ]};
     GetLabels := fun name labels => {[ "app.kubernetes.io/name" := name ]} ∪ labels;
     LabelSelector := fun name => {[ "app.kubernetes.io/name" := name ]};
     managedAnnotation := String.prefix "rabbitmq.com/" |}.

Definition sampleScheme : Scheme.t :=
  Scheme.mk [ GroupVersionKind.mk "rabbitmq.com" "v1beta1" "RabbitmqCluster" ].

(** Memory limit 1Gi below the memory request 2Gi. *)
Definition sampleResources : ResourceRequirements.t :=
  {| ResourceRequirements.Limits := {[ "memory" := Quantity.mk (2^30 * 10^9) BinarySI ]};
     ResourceRequirements.Requests := {[ "memory" := Quantity.mk (2 * 2^30 * 10^9) BinarySI ]} |}.

(** The cluster of the end-to-end scenario: instance [my-cluster], three
    replicas, image [broker:3.8.9]. *)
Definition sampleCluster : RabbitmqCluster.t :=
  {| RabbitmqCluster.Meta :=
       ObjectMeta.mk "my-cluster" "default" "d9c4a0f2" "" ""
         ∅ {[ "rabbitmq.com/tier" := "gold" ]} [];
     RabbitmqCluster.Spec :=
       {| RabbitmqClusterSpec.Replicas := 3;
          RabbitmqClusterSpec.Image := "broker:3.8.9";
          RabbitmqClusterSpec.ImagePullSecret := "";
          RabbitmqClusterSpec.Resources := Some sampleResources;
          RabbitmqClusterSpec.Persistence :=
            RabbitmqClusterPersistenceSpec.mk (Some "standard")
              (Some (Quantity.mk (10 * 2^30 * 10^9) BinarySI));
          RabbitmqClusterSpec.Affinity_ := None;
          RabbitmqClusterSpec.Tolerations := [] |} |}.

Definition sampleBuilder : StatefulSetBuilder.t :=
  StatefulSetBuilder.mk sampleCluster sampleScheme.

(** A live StatefulSet as another party left it: a label, an annotation and a
    DNS policy of its own on the object and on the pod template, and one
    replica. *)
Definition liveStatefulSet : StatefulSet.t :=
  {| StatefulSet.Meta :=
       ObjectMeta.mk "my-cluster-rabbitmq-server" "default" "5b1e77aa" "41872"
         "2020-11-03T09:12:44Z"
         {[ "team" := "payments" ]} {[ "example.com/contact" := "ops" ]} [];
     StatefulSet.Spec :=
       {| StatefulSetSpec.Replicas := Some 1;
          StatefulSetSpec.Selector :=
            Some (LabelSelector.mk {[ "app.kubernetes.io/name" := "my-cluster" ]});
          StatefulSetSpec.Template :=
            PodTemplateSpec.mk
              (ObjectMeta.mk "" "" "" "" "" {[ "team" := "payments" ]}
                 {[ "example.com/scrape" := "true" ]} [])
              (PodSpec.mk None None "" None [] [] [] [] None [] "ClusterFirst" "");
          StatefulSetSpec.VolumeClaimTemplates := [];
          StatefulSetSpec.ServiceName := "my-cluster-rabbitmq-headless";
          StatefulSetSpec.PodManagementPolicy := "OrderedReady";
          StatefulSetSpec.RevisionHistoryLimit := Some 10 |};
     StatefulSet.Status := StatefulSetStatus.mk 4 1 "my-cluster-rabbitmq-server-7d9f" |}.

(** The same object when somebody else already controls it. *)
Definition foreignStatefulSet : StatefulSet.t :=
  StatefulSet.with_Meta
    (ObjectMeta.with_OwnerReferences
       [ OwnerReference.mk "apps/v1" "Deployment" "other" "77aa" (Some true) (Some true) ]
       (StatefulSet.Meta liveStatefulSet))
    liveStatefulSet.

Definition samplePod : Pod := mkPod "my-cluster-rabbitmq-server-0" "default".

(** What [Build] returns for the sample cluster. *)
Definition sampleBuilt : StatefulSet.t :=
  @skeleton samplePackage sampleBuilder
    [ @claimTemplate samplePackage sampleCluster
        (Quantity.mk (10 * 2^30 * 10^9) BinarySI)
        (GroupVersionKind.mk "rabbitmq.com" "v1beta1" "RabbitmqCluster") ].

(** The heaps [Update] leaves for the sample cluster: on the freshly built
    object, on the live one, and on the one controlled by somebody else. *)
Definition sampleBuiltUpdated : Heap :=
  Eval vm_compute in
    default (mkHeap sampleBuilt [])
            (heapOf (@Update samplePackage sampleBuilder (ObjStatefulSet sampleBuilt))).

Definition liveUpdated : Heap :=
  Eval vm_compute in
    default (mkHeap liveStatefulSet [])
            (heapOf (@Update samplePackage sampleBuilder (ObjStatefulSet liveStatefulSet))).

Definition foreignUpdated : Heap :=
  Eval vm_compute in
    default (mkHeap foreignStatefulSet [])
            (heapOf (@Update samplePackage sampleBuilder (ObjStatefulSet foreignStatefulSet))).

(** * Properties *)

(** ** Reconciling annotations *)

Section AnnotationFacts.
Context `{Package}.

Lemma ReconcileAnnotations_lookup (existing desired : gmap string string) (k : string) :
  ReconcileAnnotations existing desired !! k =
  if managedAnnotation k then desired !! k else existing !! k.
Proof.
  unfold ReconcileAnnotations.
  rewrite lookup_union, !map_lookup_filter.
  destruct (managedAnnotation k) eqn:Hk, (desired !! k) as [v|], (existing !! k) as [w|];
    simpl; repeat case_guard; simpl in *; congruence || reflexivity.
Qed.

Lemma ReconcileAnnotations_idempotent (existing desired : gmap string string) :
  ReconcileAnnotations (ReconcileAnnotations existing desired) desired
  = ReconcileAnnotations existing desired.
Proof.
  apply map_eq; intros k.
  rewrite !ReconcileAnnotations_lookup.
  destruct (managedAnnotation k); reflexivity.
Qed.

Lemma ReconcileAnnotations_unmanaged (existing desired : gmap string string) (k : string) :
  managedAnnotation k = false ->
  ReconcileAnnotations existing desired !! k = existing !! k.
Proof. intros Hk. rewrite ReconcileAnnotations_lookup, Hk. reflexivity. Qed.

End AnnotationFacts.

(** ** Setting the controller reference *)

Lemma referSameObject_refl (r : OwnerReference.t) : referSameObject r r = true.
Proof.
  unfold referSameObject.
  rewrite !bool_decide_eq_true_2 by reflexivity. reflexivity.
Qed.

Lemma upsertOwnerRef_cons (ref r : OwnerReference.t) (rest : list OwnerReference.t) :
  upsertOwnerRef ref (r :: rest) =
  if referSameObject r ref then ref :: rest else r :: upsertOwnerRef ref rest.
Proof.
  unfold upsertOwnerRef. simpl.
  destruct (referSameObject r ref); [reflexivity|].
  destruct (indexOwnerRef rest ref); reflexivity.
Qed.

Lemma upsertOwnerRef_idempotent (ref : OwnerReference.t) (refs : list OwnerReference.t) :
  upsertOwnerRef ref (upsertOwnerRef ref refs) = upsertOwnerRef ref refs.
Proof.
  induction refs as [|r rest IH].
  - unfold upsertOwnerRef at 2. simpl.
    rewrite upsertOwnerRef_cons, referSameObject_refl. reflexivity.
  - rewrite (upsertOwnerRef_cons ref r rest).
    destruct (referSameObject r ref) eqn:Hr.
    + rewrite upsertOwnerRef_cons, referSameObject_refl. reflexivity.
    + rewrite upsertOwnerRef_cons, Hr, IH. reflexivity.
Qed.

(** After the upsert the object's controller is the reference just set,
    provided the object had no controller or one that is the same owner. *)
Lemma GetControllerOf_upsert (ref : OwnerReference.t) (refs : list OwnerReference.t) :
  isController ref = true ->
  (forall existing, GetControllerOf refs = Some existing ->
                    referSameObject existing ref = true) ->
  GetControllerOf (upsertOwnerRef ref refs) = Some ref.
Proof.
  intros Hc. unfold GetControllerOf.
  induction refs as [|r rest IH]; intros Hsame.
  - unfold upsertOwnerRef. simpl. rewrite Hc. reflexivity.
  - rewrite upsertOwnerRef_cons.
    destruct (referSameObject r ref) eqn:Hr.
    + simpl. rewrite Hc. reflexivity.
    + simpl. simpl in Hsame.
      destruct (isController r) eqn:Hcr.
      * specialize (Hsame r eq_refl). congruence.
      * apply IH. exact Hsame.
Qed.

Lemma controllerRef_isController owner gvk : isController (controllerRef owner gvk) = true.
Proof. reflexivity. Qed.

(** [SetControllerReference] reads the namespace and the owner references of
    the object, and writes the owner references only. *)
Lemma SetControllerReference_refs owner (controlled : ObjectMeta.t) scheme :
  SetControllerReference owner controlled scheme =
  match controllerReferences owner (ObjectMeta.Namespace controlled)
          (ObjectMeta.OwnerReferences controlled) scheme with
  | inl err => inl err
  | inr refs => inr (ObjectMeta.with_OwnerReferences refs controlled)
  end.
Proof.
  unfold controllerReferences, SetControllerReference. simpl.
  destruct (validateOwner _ _); [reflexivity|].
  destruct (GVKForObject scheme); [reflexivity|].
  destruct (GetControllerOf _); [|reflexivity].
  destruct (referSameObject _ _); reflexivity.
Qed.

Lemma controllerReferences_idempotent owner ns refs scheme refs' :
  controllerReferences owner ns refs scheme = inr refs' ->
  controllerReferences owner ns refs' scheme = inr refs'.
Proof.
  unfold controllerReferences, SetControllerReference. simpl.
  destruct (validateOwner _ _); [discriminate|].
  destruct (GVKForObject scheme) as [|gvk]; [discriminate|].
  set (ref := controllerRef owner gvk).
  destruct (GetControllerOf refs) as [existing|] eqn:Hex.
  - destruct (referSameObject existing ref) eqn:Hsame; [|discriminate].
    intros [= <-].
    rewrite (GetControllerOf_upsert ref refs (controllerRef_isController _ _)).
    + rewrite referSameObject_refl, upsertOwnerRef_idempotent. reflexivity.
    + intros e He. rewrite Hex in He. injection He as <-. exact Hsame.
  - intros [= <-].
    rewrite (GetControllerOf_upsert ref refs (controllerRef_isController _ _)).
    + rewrite referSameObject_refl, upsertOwnerRef_idempotent. reflexivity.
    + intros e He. rewrite Hex in He. discriminate.
Qed.

(** ** What [Update] computes *)

Section UpdateFacts.
Context `{Package}.

Lemma ParseQuantity_initContainerCPU :
  ParseQuantity initContainerCPU = inr (Quantity.mk (100 * 10^6) DecimalSI).
Proof. reflexivity. Qed.

Lemma ParseQuantity_initContainerMemory :
  ParseQuantity initContainerMemory = inr (Quantity.mk (500 * (2^20 * 10^9)) BinarySI).
Proof. reflexivity. Qed.

(** [Update] on a StatefulSet, statement by statement: the template and the
    annotations are written first; a failure to set the controller reference
    returns from there; a nil [Resources] panics; otherwise the call returns
    nil with every parameter applied. *)
Lemma Update_StatefulSet (builder : StatefulSetBuilder.t) (sts : StatefulSet.t) :
  Update builder (ObjStatefulSet sts) =
  match controllerReferences (StatefulSetBuilder.Instance builder)
          (ObjectMeta.Namespace (StatefulSet.Meta sts))
          (ObjectMeta.OwnerReferences (StatefulSet.Meta sts))
          (StatefulSetBuilder.Scheme builder) with
  | inl err =>
      Err (Errorf "failed setting controller reference: " err)
          (mkHeap (reconciled builder sts) [])
  | inr refs =>
      match RabbitmqClusterSpec.Resources
              (RabbitmqCluster.Spec (StatefulSetBuilder.Instance builder)) with
      | None => Panic "invalid memory address or nil pointer dereference"
      | Some resources =>
          Ok tt (mkHeap
                   (completed builder
                      (ObjectMeta.with_OwnerReferences refs
                         (StatefulSet.Meta (reconciled builder sts)))
                      resources (reconciled builder sts))
                   (memoryWarnings resources (ObjectMeta.Name (StatefulSet.Meta sts))))
      end
  end.
Proof.
  unfold Update, updateStatefulSet, setStatefulSetParams.
  unfold bind, getTarget, modify. cbn [target logged].
  rewrite SetControllerReference_refs.
  change (overMeta _ (overTemplate _ (overTemplate _ sts))) with (reconciled builder sts).
  change (ObjectMeta.Namespace (StatefulSet.Meta (reconciled builder sts)))
    with (ObjectMeta.Namespace (StatefulSet.Meta sts)).
  change (ObjectMeta.OwnerReferences (StatefulSet.Meta (reconciled builder sts)))
    with (ObjectMeta.OwnerReferences (StatefulSet.Meta sts)).
  destruct (controllerReferences _ _ _ _) as [err|refs]; [reflexivity|].
  rewrite ParseQuantity_initContainerCPU, ParseQuantity_initContainerMemory.
  destruct (RabbitmqClusterSpec.Resources _) as [resources|]; [|reflexivity].
  unfold completed, desiredPodSpec, memoryWarnings, desiredImagePullSecrets.
  cbn.
  destruct (Quantity.Equal (Memory (ResourceRequirements.Limits resources))
                           (Memory (ResourceRequirements.Requests resources)));
    destruct (bool_decide (RabbitmqClusterSpec.ImagePullSecret _ <> ""));
    reflexivity.
Qed.

End UpdateFacts.

(** Case analysis along the three ways [Update] ends on a StatefulSet: the
    controller reference is refused, [Resources] is nil, or all is applied. *)
Ltac update_cases err refs resources :=
  rewrite Update_StatefulSet;
  destruct (controllerReferences _ _ _ _) as [err|refs];
  [ | destruct (RabbitmqClusterSpec.Resources _) as [resources|] ].

(** ** Idempotence *)

Section Idempotence.
Context `{Package}.

Lemma reconciled_idempotent (builder : StatefulSetBuilder.t) (sts : StatefulSet.t) :
  reconciled builder (reconciled builder sts) = reconciled builder sts.
Proof.
  destruct sts as [meta spec status]. destruct meta, spec.
  unfold reconciled, Template. cbn.
  unfold ObjectMeta.with_Annotations. cbn.
  rewrite !ReconcileAnnotations_idempotent. reflexivity.
Qed.

Lemma completed_idempotent (builder : StatefulSetBuilder.t) (sts : StatefulSet.t)
    (refs : list OwnerReference.t) (resources : ResourceRequirements.t) :
  let sts' := completed builder
                (ObjectMeta.with_OwnerReferences refs
                   (StatefulSet.Meta (reconciled builder sts)))
                resources (reconciled builder sts) in
  completed builder
    (ObjectMeta.with_OwnerReferences refs (StatefulSet.Meta (reconciled builder sts')))
    resources (reconciled builder sts') = sts'.
Proof.
  destruct sts as [meta spec status]. destruct meta, spec.
  unfold completed, reconciled, Template. cbn.
  unfold ObjectMeta.with_Labels, ObjectMeta.with_Annotations,
    ObjectMeta.with_OwnerReferences, StatefulSetSpec.with_Replicas. cbn.
  rewrite !ReconcileAnnotations_idempotent. reflexivity.
Qed.

(** Whatever [Update] returned, a second [Update] with the same builder on
    the object it left returns the same and leaves the same object and log. *)
Lemma Update_again (builder : StatefulSetBuilder.t) (sts : StatefulSet.t) :
  match Update builder (ObjStatefulSet sts) with
  | Ok _ h | Err _ h =>
      Update builder (ObjStatefulSet (target h)) = Update builder (ObjStatefulSet sts)
  | Panic _ => True
  end.
Proof.
  rewrite (Update_StatefulSet builder sts).
  destruct (controllerReferences _ _ _ _) as [err|refs] eqn:Hrefs.
  - cbn [target]. rewrite Update_StatefulSet.
    change (ObjectMeta.Namespace (StatefulSet.Meta (reconciled builder sts)))
      with (ObjectMeta.Namespace (StatefulSet.Meta sts)).
    change (ObjectMeta.OwnerReferences (StatefulSet.Meta (reconciled builder sts)))
      with (ObjectMeta.OwnerReferences (StatefulSet.Meta sts)).
    rewrite Hrefs, reconciled_idempotent. reflexivity.
  - destruct (RabbitmqClusterSpec.Resources _) as [resources|] eqn:Hres; [|exact I].
    cbn [target]. rewrite Update_StatefulSet.
    change (ObjectMeta.Namespace (StatefulSet.Meta (completed _ _ _ _)))
      with (ObjectMeta.Namespace (StatefulSet.Meta sts)).
    change (ObjectMeta.OwnerReferences (StatefulSet.Meta (completed _ _ _ _))) with refs.
    change (ObjectMeta.Name (StatefulSet.Meta (completed _ _ _ _)))
      with (ObjectMeta.Name (StatefulSet.Meta sts)).
    rewrite (controllerReferences_idempotent _ _ _ _ _ Hrefs), Hres.
    rewrite (completed_idempotent builder sts refs resources). reflexivity.
Qed.

End Idempotence.

(** ** What [Build] computes *)

Section BuildFacts.
Context `{Package}.

Lemma validateOwner_same_namespace (ns : string) : validateOwner ns ns = None.
Proof.
  unfold validateOwner.
  destruct (bool_decide (ns = "")) eqn:Hns; [reflexivity|].
  rewrite bool_decide_eq_true_2 by reflexivity. reflexivity.
Qed.

Lemma persistentVolumeClaim_cases (instance : RabbitmqCluster.t) (scheme : Scheme.t) :
  persistentVolumeClaim instance scheme =
  match RabbitmqClusterPersistenceSpec.Storage
          (RabbitmqClusterSpec.Persistence (RabbitmqCluster.Spec instance)) with
  | None => None
  | Some storage =>
      match GVKForObject scheme with
      | inl err => Some ([], Some (Errorf "failed setting controller reference: " err))
      | inr gvk => Some ([ claimTemplate instance storage gvk ], None)
      end
  end.
Proof.
  unfold persistentVolumeClaim.
  destruct (RabbitmqClusterPersistenceSpec.Storage _) as [storage|]; [|reflexivity].
  unfold SetControllerReference. cbn [PersistentVolumeClaim.Meta ObjectMeta.Namespace].
  rewrite validateOwner_same_namespace.
  destruct (GVKForObject scheme) as [err|gvk]; reflexivity.
Qed.

Lemma Build_cases (builder : StatefulSetBuilder.t) :
  Build builder =
  match RabbitmqClusterPersistenceSpec.Storage
          (RabbitmqClusterSpec.Persistence
             (RabbitmqCluster.Spec (StatefulSetBuilder.Instance builder))) with
  | None => BuildPanic "invalid memory address or nil pointer dereference"
  | Some storage =>
      match GVKForObject (StatefulSetBuilder.Scheme builder) with
      | inl err => BuildError (Errorf "failed setting controller reference: " err)
      | inr gvk =>
          BuiltObject (ObjStatefulSet
            (skeleton builder
               [ claimTemplate (StatefulSetBuilder.Instance builder) storage gvk ]))
      end
  end.
Proof.
  unfold Build, statefulSet. rewrite persistentVolumeClaim_cases.
  destruct (RabbitmqClusterPersistenceSpec.Storage _) as [storage|]; [|reflexivity].
  destruct (GVKForObject _) as [err|gvk]; reflexivity.
Qed.

(** On a freshly built object the controller reference can always be set:
    the object lives in the owner's namespace and has no owner yet. *)
Lemma controllerReferences_skeleton (builder : StatefulSetBuilder.t) gvk :
  GVKForObject (StatefulSetBuilder.Scheme builder) = inr gvk ->
  controllerReferences (StatefulSetBuilder.Instance builder)
    (RabbitmqCluster.Namespace (StatefulSetBuilder.Instance builder)) []
    (StatefulSetBuilder.Scheme builder)
  = inr [ controllerRef (StatefulSetBuilder.Instance builder) gvk ].
Proof.
  intros Hgvk. unfold controllerReferences, SetControllerReference.
  cbn [ObjectMeta.Namespace ObjectMeta.OwnerReferences].
  rewrite validateOwner_same_namespace, Hgvk. reflexivity.
Qed.

End BuildFacts.

(** ** Changing the replica count only *)

Section Replicas.
Context `{Package}.

Lemma controllerReferences_owner_meta (owner owner' : RabbitmqCluster.t) ns refs scheme :
  RabbitmqCluster.Meta owner = RabbitmqCluster.Meta owner' ->
  controllerReferences owner ns refs scheme = controllerReferences owner' ns refs scheme.
Proof.
  destruct owner as [m s], owner' as [m' s']. cbn. intros <-. reflexivity.
Qed.

Lemma reconciled_withReplicas (builder : StatefulSetBuilder.t) (m : Z) (sts : StatefulSet.t) :
  reconciled (withReplicas m builder) sts = reconciled builder sts.
Proof. destruct builder as [[imeta ispec] scheme]; reflexivity. Qed.

Lemma completed_withReplicas (builder : StatefulSetBuilder.t) (m : Z) meta resources sts :
  completed (withReplicas m builder) meta resources sts
  = overSpec (StatefulSetSpec.with_Replicas (Some m)) (completed builder meta resources sts).
Proof. destruct builder as [[imeta ispec] scheme]; reflexivity. Qed.

(** [Update] for another replica count does what [Update] does, and writes
    the other count. *)
Lemma Update_withReplicas (builder : StatefulSetBuilder.t) (m : Z) (sts : StatefulSet.t) :
  Update (withReplicas m builder) (ObjStatefulSet sts) =
  match Update builder (ObjStatefulSet sts) with
  | Ok _ h =>
      Ok tt (mkHeap (overSpec (StatefulSetSpec.with_Replicas (Some m)) (target h)) (logged h))
  | other => other
  end.
Proof.
  rewrite !Update_StatefulSet.
  rewrite (controllerReferences_owner_meta
             (StatefulSetBuilder.Instance (withReplicas m builder))
             (StatefulSetBuilder.Instance builder)) by reflexivity.
  change (StatefulSetBuilder.Scheme (withReplicas m builder))
    with (StatefulSetBuilder.Scheme builder).
  change (RabbitmqClusterSpec.Resources
            (RabbitmqCluster.Spec (StatefulSetBuilder.Instance (withReplicas m builder))))
    with (RabbitmqClusterSpec.Resources
            (RabbitmqCluster.Spec (StatefulSetBuilder.Instance builder))).
  destruct (controllerReferences _ _ _ _).
  - rewrite reconciled_withReplicas. reflexivity.
  - destruct (RabbitmqClusterSpec.Resources _); [|reflexivity].
    rewrite !reconciled_withReplicas, completed_withReplicas. reflexivity.
Qed.

(** What [Update] never writes: it returns with these fields as they were. *)
Lemma Update_frame (builder : StatefulSetBuilder.t) (sts : StatefulSet.t) (h : Heap) :
  heapOf (Update builder (ObjStatefulSet sts)) = Some h ->
  let meta := StatefulSet.Meta sts in
  let meta' := StatefulSet.Meta (target h) in
  let spec := StatefulSet.Spec sts in
  let spec' := StatefulSet.Spec (target h) in
  (ObjectMeta.Name meta' = ObjectMeta.Name meta
   /\ ObjectMeta.Namespace meta' = ObjectMeta.Namespace meta
   /\ ObjectMeta.UID meta' = ObjectMeta.UID meta
   /\ ObjectMeta.ResourceVersion meta' = ObjectMeta.ResourceVersion meta
   /\ ObjectMeta.CreationTimestamp meta' = ObjectMeta.CreationTimestamp meta)
  /\ (StatefulSetSpec.ServiceName spec' = StatefulSetSpec.ServiceName spec
      /\ StatefulSetSpec.Selector spec' = StatefulSetSpec.Selector spec
      /\ StatefulSetSpec.VolumeClaimTemplates spec' = StatefulSetSpec.VolumeClaimTemplates spec
      /\ StatefulSetSpec.PodManagementPolicy spec' = StatefulSetSpec.PodManagementPolicy spec
      /\ StatefulSetSpec.RevisionHistoryLimit spec' = StatefulSetSpec.RevisionHistoryLimit spec)
  /\ StatefulSet.Status (target h) = StatefulSet.Status sts.
Proof.
  update_cases err refs resources; [| |discriminate];
    intros [= <-]; cbn; repeat split; reflexivity.
Qed.

End Replicas.

(** ** The builder's contract *)

Section Contract.
Context `{Package}.

(** C1 (idempotence).  For a cluster whose [Resources] are set, [Update]
    returns (nil or an error, never a panic) on every StatefulSet, and a
    second [Update] with the unchanged cluster on the object the first one
    left returns the same and leaves the same object behind: nothing changes
    any further.  In particular [Build] followed by [Update] and by a second
    [Update] gives the object of the first [Update]. *)
Theorem Update_idempotent (builder : StatefulSetBuilder.t)
    (resources : ResourceRequirements.t) :
  RabbitmqClusterSpec.Resources
    (RabbitmqCluster.Spec (StatefulSetBuilder.Instance builder)) = Some resources ->
  (forall sts : StatefulSet.t,
      exists h : Heap,
        heapOf (Update builder (ObjStatefulSet sts)) = Some h
        /\ Update builder (ObjStatefulSet (target h)) = Update builder (ObjStatefulSet sts))
  /\ (forall object : Object,
        Build builder = BuiltObject object ->
        exists h : Heap,
          Update builder object = Ok tt h
          /\ Update builder (ObjStatefulSet (target h)) = Ok tt h).
Proof.
  intros Hres. split.
  - intros sts.
    pose proof (Update_again builder sts) as Hagain.
    pose proof (Update_StatefulSet builder sts) as Hupd.
    rewrite Hres in Hupd.
    destruct (Update builder (ObjStatefulSet sts)) as [[] h|e h|why].
    + exists h. split; [reflexivity | exact Hagain].
    + exists h. split; [reflexivity | exact Hagain].
    + destruct (controllerReferences _ _ _ _); discriminate.
  - intros object Hbuild.
    rewrite Build_cases in Hbuild.
    destruct (RabbitmqClusterPersistenceSpec.Storage _) as [storage|]; [|discriminate].
    destruct (GVKForObject _) as [err|gvk] eqn:Hgvk; [discriminate|].
    injection Hbuild as <-.
    pose proof (Update_again builder
                  (skeleton builder
                     [claimTemplate (StatefulSetBuilder.Instance builder) storage gvk]))
      as Hagain.
    rewrite Update_StatefulSet in Hagain |- *.
    cbn [skeleton StatefulSet.Meta ObjectMeta.Namespace ObjectMeta.OwnerReferences]
      in Hagain |- *.
    rewrite (controllerReferences_skeleton builder gvk Hgvk), Hres in Hagain |- *.
    eexists. split; [reflexivity | exact Hagain].
Qed.

(** C2 (identity-bearing fields).  Whenever [Update] returns, with nil or
    with an error, the service name, the selector and the claim templates of
    the object are the ones it had before the call.  And after an [Update]
    that returned nil, an [Update] for the same cluster with another replica
    count returns nil as well, logs the same, and leaves the same object
    except for [Replicas]. *)
Theorem Update_keeps_identity_fields (builder : StatefulSetBuilder.t)
    (sts : StatefulSet.t) (h : Heap) :
  heapOf (Update builder (ObjStatefulSet sts)) = Some h ->
  StatefulSetSpec.ServiceName (StatefulSet.Spec (target h))
    = StatefulSetSpec.ServiceName (StatefulSet.Spec sts)
  /\ StatefulSetSpec.Selector (StatefulSet.Spec (target h))
    = StatefulSetSpec.Selector (StatefulSet.Spec sts)
  /\ StatefulSetSpec.VolumeClaimTemplates (StatefulSet.Spec (target h))
    = StatefulSetSpec.VolumeClaimTemplates (StatefulSet.Spec sts)
  /\ (Update builder (ObjStatefulSet sts) = Ok tt h ->
      forall m : Z,
        Update (withReplicas m builder) (ObjStatefulSet (target h))
        = Ok tt (mkHeap (overSpec (StatefulSetSpec.with_Replicas (Some m)) (target h))
                        (logged h))).
Proof.
  intros Hh.
  destruct (Update_frame builder sts h Hh) as (_ & (Hsvc & Hsel & Hvct & _) & _).
  repeat split; try assumption.
  intros Hok m.
  pose proof (Update_again builder sts) as Hagain.
  rewrite Hok in Hagain.
  rewrite Update_withReplicas, Hagain. reflexivity.
Qed.

(** C4 (frame), as amended.  Whenever [Update] returns, the object keeps its
    name, namespace, UID, resource version and creation timestamp, its
    service name, selector, claim templates, pod-management policy and
    revision-history limit, and its status; both annotation maps are what
    [ReconcileAnnotations] makes of the existing map and the cluster's, so
    every annotation key outside the controller-managed set keeps its value,
    on the object and on the pod template.  The rest is the builder's: the pod specification is the one of
    [podTemplateSpec] (with the cluster's parameters applied when the call
    returned nil), and after a nil return both label maps are [GetLabels] of
    the cluster, whatever the object held there before. *)
Theorem Update_preserves_unmanaged_fields (builder : StatefulSetBuilder.t)
    (sts : StatefulSet.t) (h : Heap) :
  heapOf (Update builder (ObjStatefulSet sts)) = Some h ->
  let instance := StatefulSetBuilder.Instance builder in
  let meta := StatefulSet.Meta sts in
  let meta' := StatefulSet.Meta (target h) in
  let spec := StatefulSet.Spec sts in
  let spec' := StatefulSet.Spec (target h) in
  (ObjectMeta.Name meta' = ObjectMeta.Name meta
   /\ ObjectMeta.Namespace meta' = ObjectMeta.Namespace meta
   /\ ObjectMeta.UID meta' = ObjectMeta.UID meta
   /\ ObjectMeta.ResourceVersion meta' = ObjectMeta.ResourceVersion meta
   /\ ObjectMeta.CreationTimestamp meta' = ObjectMeta.CreationTimestamp meta)
  /\ (StatefulSetSpec.ServiceName spec' = StatefulSetSpec.ServiceName spec
      /\ StatefulSetSpec.Selector spec' = StatefulSetSpec.Selector spec
      /\ StatefulSetSpec.VolumeClaimTemplates spec' = StatefulSetSpec.VolumeClaimTemplates spec
      /\ StatefulSetSpec.PodManagementPolicy spec' = StatefulSetSpec.PodManagementPolicy spec
      /\ StatefulSetSpec.RevisionHistoryLimit spec' = StatefulSetSpec.RevisionHistoryLimit spec)
  /\ StatefulSet.Status (target h) = StatefulSet.Status sts
  /\ (ObjectMeta.Annotations meta'
      = ReconcileAnnotations (ObjectMeta.Annotations meta) (RabbitmqCluster.Annotations instance)
      /\ ObjectMeta.Annotations (PodTemplateSpec.Meta (Template (target h)))
         = ReconcileAnnotations
             (ObjectMeta.Annotations (PodTemplateSpec.Meta (Template sts)))
             (RabbitmqCluster.Annotations instance))
  /\ (forall k : string,
        managedAnnotation k = false ->
        ObjectMeta.Annotations meta' !! k = ObjectMeta.Annotations meta !! k
        /\ ObjectMeta.Annotations (PodTemplateSpec.Meta (Template (target h))) !! k
           = ObjectMeta.Annotations (PodTemplateSpec.Meta (Template sts)) !! k)
  /\ (forall e : error,
        Update builder (ObjStatefulSet sts) = Err e h ->
        podSpec (target h) = PodTemplateSpec.Spec (podTemplateSpec builder))
  /\ (Update builder (ObjStatefulSet sts) = Ok tt h ->
      exists resources : ResourceRequirements.t,
        RabbitmqClusterSpec.Resources (RabbitmqCluster.Spec instance) = Some resources
        /\ podSpec (target h) = desiredPodSpec builder resources
        /\ ObjectMeta.Labels meta'
           = GetLabels (RabbitmqCluster.Name instance) (RabbitmqCluster.Labels instance)
        /\ ObjectMeta.Labels (PodTemplateSpec.Meta (Template (target h)))
           = GetLabels (RabbitmqCluster.Name instance) (RabbitmqCluster.Labels instance)).
Proof.
  intros Hh.
  destruct (Update_frame builder sts h Hh) as (Hmeta & Hspec & Hstatus).
  cbv zeta. split; [exact Hmeta|]. split; [exact Hspec|]. split; [exact Hstatus|].
  rewrite Update_StatefulSet in Hh |- *.
  destruct (controllerReferences _ _ _ _) as [err|refs].
  - injection Hh as <-. split; [split; reflexivity|]. split; [|split].
    + intros k Hk. cbn.
      rewrite !ReconcileAnnotations_unmanaged by exact Hk. split; reflexivity.
    + intros e _. reflexivity.
    + discriminate.
  - destruct (RabbitmqClusterSpec.Resources _) as [resources|]; [|discriminate].
    injection Hh as <-. split; [split; reflexivity|]. split; [|split].
    + intros k Hk. cbn.
      rewrite !ReconcileAnnotations_unmanaged by exact Hk. split; reflexivity.
    + discriminate.
    + intros _. exists resources. repeat split; reflexivity.
Qed.

(** C6 (warning, not error).  For a cluster whose memory request and memory
    limit differ, [Update] on a StatefulSet returns nil with exactly one line
    logged, the warning that names the object, whenever the controller
    reference can be set; the only error it can return instead is the failure
    to set that reference, and then nothing is logged.  The mismatch itself
    never ends the call. *)
Theorem memory_mismatch_is_a_warning (builder : StatefulSetBuilder.t)
    (sts : StatefulSet.t) (resources : ResourceRequirements.t) :
  RabbitmqClusterSpec.Resources
    (RabbitmqCluster.Spec (StatefulSetBuilder.Instance builder)) = Some resources ->
  Quantity.Equal (Memory (ResourceRequirements.Limits resources))
                 (Memory (ResourceRequirements.Requests resources)) = false ->
  (forall meta : ObjectMeta.t,
      SetControllerReference (StatefulSetBuilder.Instance builder) (StatefulSet.Meta sts)
        (StatefulSetBuilder.Scheme builder) = inr meta ->
      exists h : Heap,
        Update builder (ObjStatefulSet sts) = Ok tt h
        /\ logged h = [ mkLogLine ["statefulset"; "RabbitmqCluster"]
                         (memoryWarning (ObjectMeta.Name (StatefulSet.Meta sts))) ])
  /\ (forall err : error,
        SetControllerReference (StatefulSetBuilder.Instance builder) (StatefulSet.Meta sts)
          (StatefulSetBuilder.Scheme builder) = inl err ->
        exists h : Heap,
          Update builder (ObjStatefulSet sts)
          = Err (Errorf "failed setting controller reference: " err) h
          /\ logged h = []).
Proof.
  intros Hres Hneq.
  rewrite SetControllerReference_refs, Update_StatefulSet, Hres.
  unfold memoryWarnings. rewrite Hneq.
  destruct (controllerReferences _ _ _ _) as [err|refs]; split.
  - discriminate.
  - intros e [= <-]. eexists. split; reflexivity.
  - intros meta _. eexists. split; reflexivity.
  - discriminate.
Qed.

(** C7 (storage claims).  For a cluster whose storage size is set and whose
    kind the scheme knows, [persistentVolumeClaim] returns exactly one claim
    and no error: its only access mode is ReadWriteOnce, it requests the
    storage size of the cluster's persistence settings, carries their storage
    class, and its only owner reference is the controller reference to the
    cluster.  [Build] puts exactly this list into the StatefulSet, and
    [Update] returns with the claim templates of any StatefulSet as it found
    them. *)
Theorem persistentVolumeClaim_single_template (builder : StatefulSetBuilder.t)
    (storage : Quantity.t) (gvk : GroupVersionKind.t) :
  let instance := StatefulSetBuilder.Instance builder in
  let persistence := RabbitmqClusterSpec.Persistence (RabbitmqCluster.Spec instance) in
  RabbitmqClusterPersistenceSpec.Storage persistence = Some storage ->
  Scheme.ObjectKinds (StatefulSetBuilder.Scheme builder) = [gvk] ->
  exists pvc : PersistentVolumeClaim.t,
    persistentVolumeClaim instance (StatefulSetBuilder.Scheme builder) = Some ([pvc], None)
    /\ PersistentVolumeClaimSpec.AccessModes (PersistentVolumeClaim.Spec pvc) = [ReadWriteOnce]
    /\ ResourceRequirements.Requests
         (PersistentVolumeClaimSpec.Resources (PersistentVolumeClaim.Spec pvc))
       = {[ "storage" := storage ]}
    /\ PersistentVolumeClaimSpec.StorageClassName (PersistentVolumeClaim.Spec pvc)
       = RabbitmqClusterPersistenceSpec.StorageClassName persistence
    /\ (exists owner : OwnerReference.t,
          ObjectMeta.OwnerReferences (PersistentVolumeClaim.Meta pvc) = [owner]
          /\ OwnerReference.Controller owner = Some true
          /\ OwnerReference.Name owner = RabbitmqCluster.Name instance
          /\ OwnerReference.UID owner = ObjectMeta.UID (RabbitmqCluster.Meta instance)
          /\ OwnerReference.Kind owner = GroupVersionKind.Kind gvk)
    /\ (exists sts : StatefulSet.t,
          Build builder = BuiltObject (ObjStatefulSet sts)
          /\ StatefulSetSpec.VolumeClaimTemplates (StatefulSet.Spec sts) = [pvc])
    /\ (forall (sts : StatefulSet.t) (h : Heap),
          heapOf (Update builder (ObjStatefulSet sts)) = Some h ->
          StatefulSetSpec.VolumeClaimTemplates (StatefulSet.Spec (target h))
          = StatefulSetSpec.VolumeClaimTemplates (StatefulSet.Spec sts)).
Proof.
  intros instance persistence Hstorage Hkinds.
  assert (Hgvk : GVKForObject (StatefulSetBuilder.Scheme builder) = inr gvk)
    by (unfold GVKForObject; rewrite Hkinds; reflexivity).
  exists (claimTemplate instance storage gvk).
  rewrite persistentVolumeClaim_cases, Build_cases.
  fold instance. fold persistence. rewrite Hstorage, Hgvk.
  repeat split.
  - eexists. repeat split.
  - eexists. split; reflexivity.
  - intros sts h Hh.
    destruct (Update_frame builder sts h Hh) as (_ & (_ & _ & Hvct & _) & _).
    exact Hvct.
Qed.

(** C9 (totality).  [Update] panics exactly when its argument is not a
    StatefulSet, or when the cluster's [Resources] are nil and the controller
    reference could be set (the dereference comes after it); [Build] panics
    exactly when the cluster's [Persistence.Storage] is nil.  So with a
    StatefulSet, [Resources] and [Storage] at hand both return: [Update] nil
    or an error, [Build] an object or an error. *)
Theorem panics_exactly_without_preconditions (builder : StatefulSetBuilder.t) :
  let instance := StatefulSetBuilder.Instance builder in
  let spec := RabbitmqCluster.Spec instance in
  (forall object : Object,
      (exists why, Update builder object = Panic why) <->
      ((forall sts, object <> ObjStatefulSet sts)
       \/ (exists sts meta,
             object = ObjStatefulSet sts
             /\ SetControllerReference instance (StatefulSet.Meta sts)
                  (StatefulSetBuilder.Scheme builder) = inr meta
             /\ RabbitmqClusterSpec.Resources spec = None)))
  /\ ((exists why, Build builder = BuildPanic why) <->
      RabbitmqClusterPersistenceSpec.Storage (RabbitmqClusterSpec.Persistence spec) = None)
  /\ (forall sts : StatefulSet.t,
        RabbitmqClusterSpec.Resources spec <> None ->
        exists h, Update builder (ObjStatefulSet sts) = Ok tt h
                  \/ exists e, Update builder (ObjStatefulSet sts) = Err e h)
  /\ (RabbitmqClusterPersistenceSpec.Storage (RabbitmqClusterSpec.Persistence spec) <> None ->
      (exists object, Build builder = BuiltObject object)
      \/ (exists e, Build builder = BuildError e)).
Proof.
  intros instance spec. subst instance spec. repeat split.
  - intros [why Hpanic].
    destruct object as [sts|pvc|kind meta];
      [|left; intros sts; discriminate..].
    right. rewrite Update_StatefulSet in Hpanic.
    destruct (controllerReferences _ _ _ _) as [err|refs] eqn:Hrefs; [discriminate|].
    destruct (RabbitmqClusterSpec.Resources _) eqn:Hres; [discriminate|].
    exists sts. eexists. repeat split.
    rewrite SetControllerReference_refs, Hrefs. reflexivity.
  - intros [Hother|(sts & meta & -> & Hset & Hres)].
    + destruct object as [sts|pvc|kind meta].
      * destruct (Hother sts eq_refl).
      * eexists; reflexivity.
      * eexists; reflexivity.
    + rewrite Update_StatefulSet.
      rewrite SetControllerReference_refs in Hset.
      destruct (controllerReferences _ _ _ _); [discriminate|].
      rewrite Hres. eexists; reflexivity.
  - intros [why Hpanic]. rewrite Build_cases in Hpanic.
    destruct (RabbitmqClusterPersistenceSpec.Storage _); [|reflexivity].
    destruct (GVKForObject _); discriminate.
  - intros Hnil. rewrite Build_cases, Hnil.
    eexists; reflexivity.
  - intros sts Hres. rewrite Update_StatefulSet.
    destruct (controllerReferences _ _ _ _).
    + eexists. right. eexists. reflexivity.
    + destruct (RabbitmqClusterSpec.Resources _); [|congruence].
      eexists. left. reflexivity.
  - intros Hstorage. rewrite Build_cases.
    destruct (RabbitmqClusterPersistenceSpec.Storage _); [|congruence].
    destruct (GVKForObject _).
    + right. eexists; reflexivity.
    + left. eexists; reflexivity.
Qed.

(** C10 (init container resources).  After an [Update] that returned nil the
    pod has one init container and one broker container; the init
    container's limits and its requests are both the map of [cpu] to the
    quantity written [100m] and [memory] to the quantity written [500Mi],
    whatever the cluster asks for; the cluster's [Resources] are the broker
    container's. *)
Theorem init_container_resources_are_fixed (builder : StatefulSetBuilder.t)
    (sts : StatefulSet.t) (h : Heap) :
  Update builder (ObjStatefulSet sts) = Ok tt h ->
  exists (init main : Container.t) (cpu memory : Quantity.t)
         (resources : ResourceRequirements.t),
    PodSpec.InitContainers (podSpec (target h)) = [init]
    /\ PodSpec.Containers (podSpec (target h)) = [main]
    /\ ParseQuantity "100m" = inr cpu
    /\ ParseQuantity "500Mi" = inr memory
    /\ ResourceRequirements.Limits (Container.Resources init)
       = {[ "cpu" := cpu; "memory" := memory ]}
    /\ ResourceRequirements.Requests (Container.Resources init)
       = {[ "cpu" := cpu; "memory" := memory ]}
    /\ Container.Resources init = initContainerResources
    /\ RabbitmqClusterSpec.Resources
         (RabbitmqCluster.Spec (StatefulSetBuilder.Instance builder)) = Some resources
    /\ Container.Resources main = resources.
Proof.
  update_cases err refs resources; [discriminate| |discriminate].
  intros [= <-].
  do 2 eexists. exists (Quantity.mk (100 * 10^6) DecimalSI).
  exists (Quantity.mk (500 * (2^20 * 10^9)) BinarySI). exists resources.
  repeat split.
Qed.

End Contract.

(** ** The end-to-end scenario *)

Section Scenario.
Context `{Package}.

(** C5 (end to end), as amended.  For a cluster named [my-cluster] with three
    replicas and image [broker:3.8.9] (its resources and storage size set, its
    kind registered), [Build] followed by [Update] returns nil and leaves a
    StatefulSet named [my-cluster-rabbitmq-server] (the name under which the
    command-line wrapper looks for its pods) with three replicas, one claim
    template named [persistence] whose only access mode is ReadWriteOnce, the
    container ports 4369, 5672, 15672 and 15692 and no other, both containers
    running the image, and one owner reference, the controller reference to
    [my-cluster]. *)
Theorem end_to_end_scenario (builder : StatefulSetBuilder.t)
    (resources : ResourceRequirements.t) (storage : Quantity.t)
    (gvk : GroupVersionKind.t) :
  let instance := StatefulSetBuilder.Instance builder in
  let spec := RabbitmqCluster.Spec instance in
  RabbitmqCluster.Name instance = "my-cluster" ->
  RabbitmqClusterSpec.Replicas spec = 3 ->
  RabbitmqClusterSpec.Image spec = "broker:3.8.9" ->
  RabbitmqClusterSpec.Resources spec = Some resources ->
  RabbitmqClusterPersistenceSpec.Storage (RabbitmqClusterSpec.Persistence spec)
    = Some storage ->
  Scheme.ObjectKinds (StatefulSetBuilder.Scheme builder) = [gvk] ->
  exists (built : StatefulSet.t) (h : Heap) (pvc : PersistentVolumeClaim.t)
         (owner : OwnerReference.t),
    Build builder = BuiltObject (ObjStatefulSet built)
    /\ Update builder (ObjStatefulSet built) = Ok tt h
    /\ ObjectMeta.Name (StatefulSet.Meta (target h)) = "my-cluster-rabbitmq-server"
    /\ (forall node : string,
          podOf (ObjectMeta.Name (StatefulSet.Meta (target h))) node
          = Wrapper.observe_pod "my-cluster" node)
    /\ StatefulSetSpec.Replicas (StatefulSet.Spec (target h)) = Some 3
    /\ StatefulSetSpec.VolumeClaimTemplates (StatefulSet.Spec (target h)) = [pvc]
    /\ ObjectMeta.Name (PersistentVolumeClaim.Meta pvc) = "persistence"
    /\ PersistentVolumeClaimSpec.AccessModes (PersistentVolumeClaim.Spec pvc)
       = [ReadWriteOnce]
    /\ declaredPorts (podSpec (target h)) = [4369; 5672; 15672; 15692]
    /\ map Container.Image (PodSpec.InitContainers (podSpec (target h))
                            ++ PodSpec.Containers (podSpec (target h)))
       = ["broker:3.8.9"; "broker:3.8.9"]
    /\ ObjectMeta.OwnerReferences (StatefulSet.Meta (target h)) = [owner]
    /\ OwnerReference.Name owner = "my-cluster"
    /\ OwnerReference.Controller owner = Some true.
Proof.
  intros instance spec Hname Hreplicas Himage Hres Hstorage Hkinds.
  subst instance spec.
  assert (Hgvk : GVKForObject (StatefulSetBuilder.Scheme builder) = inr gvk)
    by (unfold GVKForObject; rewrite Hkinds; reflexivity).
  rewrite Build_cases, Hstorage, Hgvk.
  eexists. eexists.
  exists (claimTemplate (StatefulSetBuilder.Instance builder) storage gvk).
  exists (controllerRef (StatefulSetBuilder.Instance builder) gvk).
  split; [reflexivity|].
  rewrite Update_StatefulSet.
  cbn [skeleton StatefulSet.Meta ObjectMeta.Namespace ObjectMeta.OwnerReferences].
  rewrite (controllerReferences_skeleton builder gvk Hgvk), Hres.
  split; [reflexivity|].
  cbn [target].
  repeat split.
  - cbn. unfold ChildResourceName. rewrite Hname. reflexivity.
  - intros node. cbn. unfold ChildResourceName. rewrite Hname. reflexivity.
  - cbn. rewrite Hreplicas. reflexivity.
  - cbn. rewrite Himage. reflexivity.
  - cbn. exact Hname.
Qed.

End Scenario.

(** ** The pre-stop hook *)

Section PreStop.
Context `{Package}.

(** A check that answers the sentinel is never followed by the return: the
    script goes to sleep. *)
Lemma step_sentinel (l l' : Loc) (check : Check) :
  step l (Invoke check sentinel) l' -> l' = Sleeping.
Proof. inversion 1; subst; congruence. Qed.

(** From the sleep the only way on is to wait two seconds and run the
    quorum check again. *)
Lemma step_sleeping (e : Event) (l' : Loc) :
  step Sleeping e l' -> e = Sleep 2 /\ l' = AtQuorumCheck.
Proof. inversion 1; subst; split; reflexivity. Qed.

(** The script only stops at its end. *)
Lemma step_returned (e : Event) (l' : Loc) : ~ step Returned e l'.
Proof. inversion 1. Qed.

(** Every run that reaches the return, from wherever it starts, ends with the
    checks that cleared it. *)
Lemma steps_to_return (l : Loc) (tr : list Event) :
  steps l tr Returned ->
  match l with
  | Returned => tr = []
  | AtMirrorCheck =>
      (exists c, tr = [Invoke MirrorSyncCritical c] /\ c <> sentinel)
      \/ (exists tr' c1 c2,
            tr = (tr' ++ [Invoke QuorumCritical c1; Invoke MirrorSyncCritical c2])%list
            /\ c1 <> sentinel /\ c2 <> sentinel)
  | AtQuorumCheck | Sleeping =>
      exists tr' c1 c2,
        tr = (tr' ++ [Invoke QuorumCritical c1; Invoke MirrorSyncCritical c2])%list
        /\ c1 <> sentinel /\ c2 <> sentinel
  end.
Proof.
  intros Hrun. remember Returned as final eqn:Hfinal.
  induction Hrun as [l|l e l' tr l'' Hstep Hrun IH].
  - subst l. reflexivity.
  - specialize (IH Hfinal). subst l''.
    destruct Hstep as [code Hc|code Hc|code Hc|code Hc|].
    + destruct IH as (tr' & c1 & c2 & -> & H1 & H2).
      exists (Invoke QuorumCritical code :: tr'), c1, c2. repeat split; assumption.
    + destruct IH as [(c & -> & Hclear)|(tr' & c1 & c2 & -> & H1 & H2)].
      * exists [], code, c. repeat split; assumption.
      * exists (Invoke QuorumCritical code :: tr'), c1, c2. repeat split; assumption.
    + right. destruct IH as (tr' & c1 & c2 & -> & H1 & H2).
      exists (Invoke MirrorSyncCritical code :: tr'), c1, c2. repeat split; assumption.
    + left. subst tr. exists code. split; [reflexivity | assumption].
    + destruct IH as (tr' & c1 & c2 & -> & H1 & H2).
      exists (Sleep 2 :: tr'), c1, c2. repeat split; assumption.
Qed.

(** The script run against a given diagnostic is a run of the transition
    system. *)
Lemma preStop_steps (fuel : nat) (diagnostic : nat -> Check -> Z) :
  forall (n : nat) (l : Loc) (tr : list Event),
    preStop fuel diagnostic n l = Some tr -> steps l tr Returned.
Proof.
  induction fuel as [|fuel IH]; intros n l tr Hrun.
  - destruct l; try discriminate. injection Hrun as <-. constructor.
  - destruct l; simpl in Hrun.
    + destruct (preStop fuel diagnostic (S n) _) as [tr'|] eqn:Hrest; [|discriminate].
      injection Hrun as <-. apply IH in Hrest.
      destruct (Z.eqb_spec (diagnostic n QuorumCritical) sentinel) as [Heq|Hne].
      * eapply steps_cons; [apply step_quorum_critical, Heq | exact Hrest].
      * eapply steps_cons; [apply step_quorum_clear, Hne | exact Hrest].
    + destruct (preStop fuel diagnostic (S n) _) as [tr'|] eqn:Hrest; [|discriminate].
      injection Hrun as <-. apply IH in Hrest.
      destruct (Z.eqb_spec (diagnostic n MirrorSyncCritical) sentinel) as [Heq|Hne].
      * eapply steps_cons; [apply step_mirror_critical, Heq | exact Hrest].
      * eapply steps_cons; [apply step_mirror_clear, Hne | exact Hrest].
    + destruct (preStop fuel diagnostic n AtQuorumCheck) as [tr'|] eqn:Hrest; [|discriminate].
      injection Hrun as <-. apply IH in Hrest.
      eapply steps_cons; [apply step_sleep | exact Hrest].
    + injection Hrun as <-. constructor.
Qed.

(** With the diagnostic that is critical twice, six steps are enough, and
    more fuel changes nothing. *)
Lemma preStop_criticalTwice (fuel : nat) :
  (6 <= fuel)%nat ->
  preStop fuel criticalTwice 0 AtQuorumCheck =
  Some [ Invoke QuorumCritical 69; Sleep 2;
         Invoke QuorumCritical 69; Sleep 2;
         Invoke QuorumCritical 0; Invoke MirrorSyncCritical 0 ].
Proof.
  intros Hfuel.
  do 6 (destruct fuel as [|fuel]; [lia|]).
  destruct fuel; reflexivity.
Qed.

(** C3 (termination hook).  The grace period the builder writes is 604800
    seconds, seven days, and the broker container's pre-stop handler runs
    [preStopScript] under bash.  In every run of that script: a check
    answering 69 leads to the sleep, and the sleep to a wait of two seconds
    and the quorum check again; a run that reaches the return ends with a
    quorum check and then a mirror-sync check that both answered something
    other than 69.  Against a diagnostic that answers 69 twice and then 0 the
    script returns (six steps are enough) after exactly three quorum checks,
    one mirror-sync check and two sleeps. *)
Theorem preStop_never_returns_on_sentinel (builder : StatefulSetBuilder.t) :
  defaultGracePeriodTimeoutSeconds = 604800
  /\ PodSpec.TerminationGracePeriodSeconds (PodTemplateSpec.Spec (podTemplateSpec builder))
     = Some 604800
  /\ (exists broker : Container.t,
        PodSpec.Containers (PodTemplateSpec.Spec (podTemplateSpec builder)) = [broker]
        /\ Container.Lifecycle_ broker
           = Some (Lifecycle.mk None
                     (Some (Handler.mk
                              (Some (ExecAction.mk ["/bin/bash"; "-c"; preStopScript]))))))
  /\ sentinel = 69
  /\ (forall l l' check, step l (Invoke check sentinel) l' -> l' = Sleeping)
  /\ (forall e l', step Sleeping e l' -> e = Sleep 2 /\ l' = AtQuorumCheck)
  /\ (forall tr, steps AtQuorumCheck tr Returned ->
        exists tr' c1 c2,
          tr = (tr' ++ [Invoke QuorumCritical c1; Invoke MirrorSyncCritical c2])%list
          /\ c1 <> sentinel /\ c2 <> sentinel)
  /\ (forall fuel, (6 <= fuel)%nat ->
        exists tr,
          preStop fuel criticalTwice 0 AtQuorumCheck = Some tr
          /\ steps AtQuorumCheck tr Returned
          /\ invocations QuorumCritical tr = 3%nat
          /\ invocations MirrorSyncCritical tr = 1%nat
          /\ tr = [ Invoke QuorumCritical 69; Sleep 2;
                    Invoke QuorumCritical 69; Sleep 2;
                    Invoke QuorumCritical 0; Invoke MirrorSyncCritical 0 ]).
Proof.
  split; [reflexivity|]. split; [reflexivity|].
  split; [eexists; split; reflexivity|]. split; [reflexivity|].
  split; [exact step_sentinel|]. split; [exact step_sleeping|].
  split.
  - intros tr Hrun. exact (steps_to_return AtQuorumCheck tr Hrun).
  - intros fuel Hfuel.
    pose proof (preStop_criticalTwice fuel Hfuel) as Hrun.
    eexists. split; [exact Hrun|]. split; [|repeat split].
    exact (preStop_steps fuel criticalTwice 0 AtQuorumCheck _ Hrun).
Qed.

End PreStop.

(** ** The node identity *)

Section NodeIdentity.
Context `{Package}.

Lemma Expand_plain (mapping : string -> string) (s : string) :
  plain s = true -> Expand mapping s None = s.
Proof.
  induction s as [|c rest IH]; [reflexivity|].
  simpl. intros [Hc Hrest]%andb_prop.
  destruct (bool_decide (c = "$"%char)); [discriminate|].
  rewrite IH by exact Hrest. reflexivity.
Qed.

Lemma plain_append (a b : string) : plain (a +:+ b) = plain a && plain b.
Proof.
  induction a as [|c rest IH]; [reflexivity|].
  simpl. rewrite IH, andb_assoc. reflexivity.
Qed.

Lemma ChildResourceName_append (cluster : RabbitmqCluster.t) (name : string) :
  ChildResourceName cluster name = RabbitmqCluster.Name cluster +:+ ("-rabbitmq-" +:+ name).
Proof. reflexivity. Qed.

Lemma plain_ChildResourceName (cluster : RabbitmqCluster.t) (name : string) :
  plain (RabbitmqCluster.Name cluster) = true -> plain name = true ->
  plain (ChildResourceName cluster name) = true.
Proof.
  intros Hc Hn. rewrite ChildResourceName_append, !plain_append, Hc, Hn. reflexivity.
Qed.

Lemma ChildResourceName_not_empty (cluster : RabbitmqCluster.t) (name : string) :
  ChildResourceName cluster name <> "".
Proof.
  rewrite ChildResourceName_append.
  destruct (RabbitmqCluster.Name cluster); discriminate.
Qed.

(** The node name the platform hands to the broker of a pod. *)
Lemma resolved_node_name (builder : StatefulSetBuilder.t) (pod : Pod) :
  plain (RabbitmqCluster.Name (StatefulSetBuilder.Instance builder)) = true ->
  assoc "RABBITMQ_NODENAME"
        (resolveEnv pod (Container.Env (rabbitmqContainer builder)) [])
  = Some ("rabbit@" +:+ podName pod +:+ "."
          +:+ ChildResourceName (StatefulSetBuilder.Instance builder) "headless" +:+ "."
          +:+ podNamespace pod +:+ ".svc.cluster.local").
Proof.
  intros Hplain.
  pose proof (plain_ChildResourceName (StatefulSetBuilder.Instance builder) "headless"
                Hplain eq_refl) as Hsvc.
  pose proof (ChildResourceName_not_empty (StatefulSetBuilder.Instance builder) "headless")
    as Hne.
  set (svc := ChildResourceName (StatefulSetBuilder.Instance builder) "headless") in *.
  unfold rabbitmqContainer. cbn [Container.Env]. fold svc.
  cbn [resolveEnv valueEnv fieldRefEnv EnvVar.Value EnvVar.Name EnvVar.ValueFrom].
  rewrite (bool_decide_eq_true_2 (svc <> "") Hne).
  rewrite (Expand_plain _ svc Hsvc).
  vm_compute. reflexivity.
Qed.

(** C8 (node identity).  The broker container of the pod template, which
    [Update] leaves in place with this environment, defines
    [RABBITMQ_NODENAME] as
    [rabbit@$(MY_POD_NAME).$(K8S_SERVICE_NAME).$(MY_POD_NAMESPACE).svc.cluster.local]
    and [RABBITMQ_USE_LONGNAME] as [true]; the three variables referred to are
    the pod's name and namespace, taken from the pod's own fields, and the
    name of the headless service.  Resolved for a pod, the node name is
    [rabbit@<pod name>.<headless service name>.<pod namespace>.svc.cluster.local],
    so two pods with the same name, namespace and service name get the same
    node name, whatever else differs between their clusters.  (The cluster's
    name is taken to contain no [$], which no object name does.) *)
Theorem node_identity_is_deterministic (builder : StatefulSetBuilder.t) (pod : Pod) :
  let instance := StatefulSetBuilder.Instance builder in
  let env := Container.Env (rabbitmqContainer builder) in
  plain (RabbitmqCluster.Name instance) = true ->
  PodSpec.Containers (PodTemplateSpec.Spec (podTemplateSpec builder))
    = [rabbitmqContainer builder]
  /\ (forall sts h,
        Update builder (ObjStatefulSet sts) = Ok tt h ->
        map Container.Env (PodSpec.Containers (podSpec (target h))) = [env])
  /\ lookupEnv "RABBITMQ_NODENAME" env
     = Some (valueEnv "RABBITMQ_NODENAME"
               "rabbit@$(MY_POD_NAME).$(K8S_SERVICE_NAME).$(MY_POD_NAMESPACE).svc.cluster.local")
  /\ lookupEnv "RABBITMQ_USE_LONGNAME" env = Some (valueEnv "RABBITMQ_USE_LONGNAME" "true")
  /\ lookupEnv "MY_POD_NAME" env = Some (fieldRefEnv "MY_POD_NAME" "metadata.name")
  /\ lookupEnv "MY_POD_NAMESPACE" env
     = Some (fieldRefEnv "MY_POD_NAMESPACE" "metadata.namespace")
  /\ lookupEnv "K8S_SERVICE_NAME" env
     = Some (valueEnv "K8S_SERVICE_NAME" (ChildResourceName instance "headless"))
  /\ assoc "RABBITMQ_NODENAME" (resolveEnv pod env [])
     = Some ("rabbit@" +:+ podName pod +:+ "."
             +:+ ChildResourceName instance "headless" +:+ "."
             +:+ podNamespace pod +:+ ".svc.cluster.local")
  /\ (forall (builder' : StatefulSetBuilder.t) (pod' : Pod),
        plain (RabbitmqCluster.Name (StatefulSetBuilder.Instance builder')) = true ->
        podName pod' = podName pod ->
        podNamespace pod' = podNamespace pod ->
        ChildResourceName (StatefulSetBuilder.Instance builder') "headless"
          = ChildResourceName instance "headless" ->
        assoc "RABBITMQ_NODENAME"
              (resolveEnv pod' (Container.Env (rabbitmqContainer builder')) [])
        = assoc "RABBITMQ_NODENAME" (resolveEnv pod env [])).
Proof.
  intros instance env Hplain. subst instance env.
  split; [reflexivity|]. split.
  - intros sts h. update_cases err refs resources; [discriminate| |discriminate].
    intros [= <-]. reflexivity.
  - do 5 (split; [reflexivity|]).
    split; [exact (resolved_node_name builder pod Hplain)|].
    intros builder' pod' Hplain' Hname Hns Hsvc.
    rewrite (resolved_node_name builder pod Hplain).
    rewrite (resolved_node_name builder' pod' Hplain').
    rewrite Hname, Hns, Hsvc. reflexivity.
Qed.

End NodeIdentity.

(** * Further properties of the code *)

(** ** The pre-stop hook: progress and counts *)

(** X1.  As long as every quorum check answers the sentinel, the script does
    not return, however many steps it is given: it runs the quorum check and
    sleeps, over and over, and only the grace period ends it. *)
Theorem preStop_blocks_while_quorum_critical (diagnostic : nat -> Check -> Z) :
  (forall n, diagnostic n QuorumCritical = sentinel) ->
  forall (fuel n : nat),
    preStop fuel diagnostic n AtQuorumCheck = None
    /\ preStop fuel diagnostic n Sleeping = None.
Proof.
  intros Hcritical fuel.
  induction fuel as [|fuel IH]; intros n; [split; reflexivity|].
  split.
  - simpl. rewrite Hcritical, Z.eqb_refl.
    rewrite (proj2 (IH (S n))). reflexivity.
  - simpl. rewrite (proj1 (IH n)). reflexivity.
Qed.

(** The steps the script needs at most, at a control point and after [n]
    invocations, when the diagnostic is clear from invocation [k] on. *)
Lemma preStop_progress (diagnostic : nat -> Check -> Z) (k : nat) :
  (forall n check, (k <= n)%nat -> diagnostic n check <> sentinel) ->
  forall (fuel n : nat) (l : Loc),
    (match l with
     | Returned => 0
     | AtMirrorCheck => if (k <=? n)%nat then 1 else 2 * (k - n) + 2
     | AtQuorumCheck => 2 * (k - n) + 2
     | Sleeping => 2 * (k - n) + 3
     end <= fuel)%nat ->
    is_Some (preStop fuel diagnostic n l).
Proof.
  intros Hclear fuel.
  induction fuel as [|fuel IH]; intros n l Hfuel.
  - destruct l; try (exfalso; destruct (k <=? n)%nat; lia). eexists; reflexivity.
  - destruct l; simpl.
    + destruct (Z.eqb_spec (diagnostic n QuorumCritical) sentinel) as [Heq|Hne].
      * assert (n < k)%nat
          by (destruct (Nat.lt_ge_cases n k) as [?|Hge]; [assumption|];
              destruct (Hclear n QuorumCritical Hge Heq)).
        destruct (IH (S n) Sleeping) as [tr ->]; [lia | eexists; reflexivity].
      * destruct (IH (S n) AtMirrorCheck) as [tr ->]; [|eexists; reflexivity].
        destruct (Nat.leb_spec k (S n)); lia.
    + destruct (Z.eqb_spec (diagnostic n MirrorSyncCritical) sentinel) as [Heq|Hne].
      * assert (n < k)%nat
          by (destruct (Nat.lt_ge_cases n k) as [?|Hge]; [assumption|];
              destruct (Hclear n MirrorSyncCritical Hge Heq)).
        destruct (Nat.leb_spec k n); [lia|].
        destruct (IH (S n) Sleeping) as [tr ->]; [lia | eexists; reflexivity].
      * destruct fuel; eexists; reflexivity.
    + destruct (IH n AtQuorumCheck) as [tr ->]; [lia | eexists; reflexivity].
    + eexists; reflexivity.
Qed.

(** X2.  If from the invocation number [k] on the diagnostic never answers
    the sentinel, the script returns: [2 * k + 2] steps are enough, and the
    run it makes is a run of the transition system. *)
Theorem preStop_returns_once_clear (diagnostic : nat -> Check -> Z) (k fuel : nat) :
  (forall n check, (k <= n)%nat -> diagnostic n check <> sentinel) ->
  (2 * k + 2 <= fuel)%nat ->
  exists tr : list Event,
    preStop fuel diagnostic 0 AtQuorumCheck = Some tr
    /\ steps AtQuorumCheck tr Returned.
Proof.
  intros Hclear Hfuel.
  destruct (preStop_progress diagnostic k Hclear fuel 0 AtQuorumCheck) as [tr Htr];
    [lia|].
  exists tr. split; [exact Htr|].
  exact (preStop_steps fuel diagnostic 0 AtQuorumCheck tr Htr).
Qed.

Lemma steps_counts (l : Loc) (tr : list Event) :
  steps l tr Returned ->
  let s := sentinelAnswers tr in
  match l with
  | AtQuorumCheck =>
      invocations QuorumCritical tr = S s /\ secondsSlept tr = 2 * Z.of_nat s
  | AtMirrorCheck =>
      invocations QuorumCritical tr = s /\ secondsSlept tr = 2 * Z.of_nat s
  | Sleeping =>
      invocations QuorumCritical tr = S s /\ secondsSlept tr = 2 * Z.of_nat s + 2
  | Returned => tr = []
  end.
Proof.
  intros Hrun. remember Returned as final eqn:Hfinal.
  induction Hrun as [l|l e l' tr l'' Hstep Hrun IH].
  - subst l. reflexivity.
  - specialize (IH Hfinal). subst l''. cbv zeta in IH |- *.
    unfold invocations, sentinelAnswers in IH |- *.
    destruct Hstep as [code Hc|code Hc|code Hc|code Hc|]; simpl.
    + subst code. rewrite Z.eqb_refl. simpl. destruct IH as [-> ->]. split; lia.
    + rewrite (proj2 (Z.eqb_neq code sentinel) Hc). simpl. destruct IH as [-> ->].
      split; lia.
    + subst code. rewrite Z.eqb_refl. simpl. destruct IH as [-> ->]. split; lia.
    + rewrite (proj2 (Z.eqb_neq code sentinel) Hc). subst tr. split; reflexivity.
    + destruct IH as [-> ->]. split; lia.
Qed.

(** X3.  In every run of the script that returns, the quorum check was
    invoked once more than checks answered the sentinel (each sentinel
    answer, of either check, sends the script back to it), and the script
    slept two seconds per sentinel answer. *)
Theorem preStop_run_counts (tr : list Event) :
  steps AtQuorumCheck tr Returned ->
  invocations QuorumCritical tr = S (sentinelAnswers tr)
  /\ secondsSlept tr = 2 * Z.of_nat (sentinelAnswers tr).
Proof. intros Hrun. exact (steps_counts AtQuorumCheck tr Hrun). Qed.

(** ** The builder: what one [Update] settles *)

Section Settled.
Context `{Package}.

(** X4.  [Update] is not all or nothing.  When the controller reference is
    refused it returns the wrapped error with the pod template already
    replaced by the bare template of [podTemplateSpec] (no image, no
    resources on either container) and the annotations reconciled, while the
    labels, the replica count and the owner references are still the ones
    the object came with. *)
Theorem Update_error_leaves_half_applied (builder : StatefulSetBuilder.t)
    (sts : StatefulSet.t) (err : error) :
  SetControllerReference (StatefulSetBuilder.Instance builder) (StatefulSet.Meta sts)
    (StatefulSetBuilder.Scheme builder) = inl err ->
  exists h : Heap,
    Update builder (ObjStatefulSet sts)
    = Err (Errorf "failed setting controller reference: " err) h
    /\ podSpec (target h) = PodTemplateSpec.Spec (podTemplateSpec builder)
    /\ map Container.Image (PodSpec.InitContainers (podSpec (target h))
                            ++ PodSpec.Containers (podSpec (target h))) = [""; ""]
    /\ ObjectMeta.Annotations (StatefulSet.Meta (target h))
       = ReconcileAnnotations (ObjectMeta.Annotations (StatefulSet.Meta sts))
           (RabbitmqCluster.Annotations (StatefulSetBuilder.Instance builder))
    /\ ObjectMeta.Labels (StatefulSet.Meta (target h))
       = ObjectMeta.Labels (StatefulSet.Meta sts)
    /\ StatefulSetSpec.Replicas (StatefulSet.Spec (target h))
       = StatefulSetSpec.Replicas (StatefulSet.Spec sts)
    /\ ObjectMeta.OwnerReferences (StatefulSet.Meta (target h))
       = ObjectMeta.OwnerReferences (StatefulSet.Meta sts).
Proof.
  rewrite SetControllerReference_refs, Update_StatefulSet.
  destruct (controllerReferences _ _ _ _) as [e|refs]; [|discriminate].
  intros [= ->]. eexists. repeat split.
Qed.

(** X5.  After an [Update] that returned nil the parameters of the cluster
    are the object's, whatever it held before: the replica count, the image
    on the init container and on the broker, the affinity and the
    tolerations; and the pull secrets are exactly the cluster's one, or none
    when the cluster names none, so that secrets of earlier passes do not
    pile up. *)
Theorem Update_applies_cluster_parameters (builder : StatefulSetBuilder.t)
    (sts : StatefulSet.t) (h : Heap) :
  Update builder (ObjStatefulSet sts) = Ok tt h ->
  let spec := RabbitmqCluster.Spec (StatefulSetBuilder.Instance builder) in
  let pod := podSpec (target h) in
  StatefulSetSpec.Replicas (StatefulSet.Spec (target h))
    = Some (RabbitmqClusterSpec.Replicas spec)
  /\ map Container.Image (PodSpec.InitContainers pod ++ PodSpec.Containers pod)
     = [ RabbitmqClusterSpec.Image spec; RabbitmqClusterSpec.Image spec ]
  /\ PodSpec.ImagePullSecrets pod
     = (if bool_decide (RabbitmqClusterSpec.ImagePullSecret spec = "") then []
        else [ LocalObjectReference.mk (RabbitmqClusterSpec.ImagePullSecret spec) ])
  /\ PodSpec.Affinity_ pod = RabbitmqClusterSpec.Affinity_ spec
  /\ PodSpec.Tolerations pod = RabbitmqClusterSpec.Tolerations spec.
Proof.
  update_cases err refs resources; [discriminate| |discriminate].
  intros [= <-]. cbn. unfold desiredImagePullSecrets.
  repeat split.
  destruct (decide (RabbitmqClusterSpec.ImagePullSecret
                      (RabbitmqCluster.Spec (StatefulSetBuilder.Instance builder)) = ""))
    as [Heq|Hne].
  - rewrite (bool_decide_eq_true_2 _ Heq), bool_decide_eq_false_2; [reflexivity|].
    intros Hne. exact (Hne Heq).
  - rewrite (bool_decide_eq_false_2 _ Hne), bool_decide_eq_true_2; [reflexivity|exact Hne].
Qed.

(** X6.  One [Update] undoes any drift in what the controller owns: if
    [Update] returns nil on an object, it returns nil with the very same
    object and log on every object that differs from it only in the replica
    count, the labels of the object or of the pod template, or the pod
    specification. *)
Theorem Update_erases_drift (builder : StatefulSetBuilder.t) (sts : StatefulSet.t)
    (h : Heap) :
  Update builder (ObjStatefulSet sts) = Ok tt h ->
  forall (replicas : option Z) (labels templateLabels : gmap string string)
         (pod : PodSpec.t),
    Update builder (ObjStatefulSet (drifted replicas labels templateLabels pod sts))
    = Ok tt h.
Proof.
  intros Hupdate replicas labels templateLabels pod.
  rewrite Update_StatefulSet in Hupdate |- *.
  change (ObjectMeta.Namespace (StatefulSet.Meta (drifted _ _ _ _ sts)))
    with (ObjectMeta.Namespace (StatefulSet.Meta sts)).
  change (ObjectMeta.OwnerReferences (StatefulSet.Meta (drifted _ _ _ _ sts)))
    with (ObjectMeta.OwnerReferences (StatefulSet.Meta sts)).
  change (ObjectMeta.Name (StatefulSet.Meta (drifted _ _ _ _ sts)))
    with (ObjectMeta.Name (StatefulSet.Meta sts)).
  destruct (controllerReferences _ _ _ _) as [err|refs]; [discriminate|].
  destruct (RabbitmqClusterSpec.Resources _) as [resources|]; [|discriminate].
  rewrite <- Hupdate. reflexivity.
Qed.

(** The names mounted by the two containers and the names of the pod's
    volumes, as [podTemplateSpec] writes them; [Update] keeps them. *)
Lemma Update_mounts_and_volumes (builder : StatefulSetBuilder.t) (sts : StatefulSet.t)
    (h : Heap) :
  Update builder (ObjStatefulSet sts) = Ok tt h ->
  mountedNames (podSpec (target h))
  = [ "server-conf"; "rabbitmq-etc"; "rabbitmq-erlang-cookie"; "erlang-cookie-secret";
      "server-conf"; "rabbitmq-admin"; "persistence"; "rabbitmq-etc";
      "rabbitmq-erlang-cookie" ]
  /\ volumeNames (podSpec (target h))
     = [ "rabbitmq-admin"; "server-conf"; "rabbitmq-etc"; "rabbitmq-erlang-cookie";
         "erlang-cookie-secret" ]
  /\ claimNames (target h) = claimNames sts.
Proof.
  update_cases err refs resources; [discriminate| |discriminate].
  intros [= <-]. repeat split.
Qed.

(** X7.  After an [Update] that returned nil, every volume mount of the two
    containers names a volume of the pod or a claim template of the object
    if and only if the object came with a claim template named
    [persistence]: the broker's data mount has no volume in the pod, and
    [Update] does not add the claim.  [Build] provides it, and no volume
    shares its name. *)
Theorem mounts_are_backed_iff_claimed (builder : StatefulSetBuilder.t)
    (sts : StatefulSet.t) (h : Heap) :
  Update builder (ObjStatefulSet sts) = Ok tt h ->
  (incl (mountedNames (podSpec (target h)))
        (volumeNames (podSpec (target h)) ++ claimNames (target h))
   <-> In "persistence" (claimNames sts))
  /\ NoDup ("persistence" :: volumeNames (podSpec (target h)))
  /\ (forall built, Build builder = BuiltObject (ObjStatefulSet built) ->
                    claimNames built = ["persistence"]).
Proof.
  intros Hupdate.
  destruct (Update_mounts_and_volumes builder sts h Hupdate) as (-> & -> & ->).
  split; [split|split].
  - intros Hincl.
    specialize (Hincl "persistence"). rewrite in_app_iff in Hincl.
    destruct Hincl as [Hvolume|Hclaim]; [simpl; tauto| |exact Hclaim].
    simpl in Hvolume. repeat destruct Hvolume as [Hvolume|Hvolume]; try discriminate.
    destruct Hvolume.
  - intros Hclaim name Hname. rewrite in_app_iff.
    simpl in Hname.
    repeat (destruct Hname as [<-|Hname]; [first [left; simpl; tauto | right; exact Hclaim]|]).
    destruct Hname.
  - apply (bool_decide_unpack _). vm_compute. exact I.
  - intros built. rewrite Build_cases.
    destruct (RabbitmqClusterPersistenceSpec.Storage _); [|discriminate].
    destruct (GVKForObject _); [discriminate|].
    intros [= <-]. reflexivity.
Qed.

End Settled.

(** ** The command-line wrapper *)

(** X8.  Whatever the arguments, a function of the script is only run with
    the positional parameters it reads in place ([$1], and [$2] for
    [observe]), and the dispatch itself never stops at an unbound parameter:
    a call with too few or too many arguments ends in the usage text, and
    [delete] is never run on nothing. *)
Theorem script_binds_what_it_runs (args : list string) :
  Plugin.script args <> Plugin.UnboundParameter
  /\ forall command rest,
       Plugin.script args = Plugin.Run command rest ->
       (Plugin.parametersRead command <= length rest)%nat
       /\ (command = Plugin.Observe -> length rest = 2%nat)
       /\ (command = Plugin.Delete -> rest <> [])
       /\ (In command [ Plugin.Get; Plugin.Debug; Plugin.Secrets;
                        Plugin.EnableAllFeatureFlags; Plugin.InstallClusterOperator ] ->
           length rest = 1%nat).
Proof.
  unfold Plugin.script, Plugin.main.
  destruct args as [|word rest]; [split; [discriminate|intros ? ? [=]]|].
  cbn [length Nat.leb].
  repeat (destruct (bool_decide (word = _)));
    destruct rest as [|a [|b [|c rest]]]; cbn;
    repeat match goal with
           | |- context [if ?b then _ else _] => destruct b
           end;
    (split; [discriminate|]);
    intros command args' [=]; subst; cbn;
    repeat split; try lia; try discriminate;
    intros Hin; repeat destruct Hin as [Hin|Hin]; try discriminate; try reflexivity;
    destruct Hin.
Qed.

Lemma hasTwoDashes_iff (name : string) :
  Plugin.hasTwoDashes name = true <-> exists pre post, name = pre +:+ "--" +:+ post.
Proof.
  split.
  - induction name as [|a rest IH]; [discriminate|].
    destruct rest as [|b rest']; [discriminate|].
    cbn [Plugin.hasTwoDashes]. intros [Hhere|Hlater]%orb_prop.
    + apply andb_prop in Hhere as [Ha Hb].
      apply bool_decide_eq_true_1 in Ha, Hb. subst.
      exists "", rest'. reflexivity.
    + destruct (IH Hlater) as (pre & post & ->).
      exists (String a pre), post. reflexivity.
  - intros (pre & post & ->).
    induction pre as [|a pre IH]; [reflexivity|].
    change (String a pre +:+ "--" +:+ post) with (String a (pre +:+ "--" +:+ post)).
    destruct (pre +:+ "--" +:+ post) as [|b rest'] eqn:Hrest; [destruct pre; discriminate|].
    change (Plugin.hasTwoDashes (String a (String b rest')))
      with ((bool_decide (a = "-"%char) && bool_decide (b = "-"%char))
            || Plugin.hasTwoDashes (String b rest')).
    rewrite IH. apply orb_true_r.
Qed.

(** X9.  [manage] takes an instance name for an option as soon as two dashes
    stand anywhere in it, not only at its start, and then reports a missing
    instance name and exits with 1; every other name is handed to the
    function. *)
Theorem manage_refuses_names_with_two_dashes (name : string) (more : list string) :
  (Plugin.script ("manage" :: name :: more) = Plugin.MissingInstance
   <-> exists pre post, name = pre +:+ "--" +:+ post)
  /\ (Plugin.script ("manage" :: name :: more) <> Plugin.MissingInstance ->
      Plugin.script ("manage" :: name :: more) = Plugin.Run Plugin.Manage (name :: more)).
Proof.
  rewrite <- hasTwoDashes_iff.
  change (Plugin.script ("manage" :: name :: more))
    with (if Plugin.hasTwoDashes name then Plugin.MissingInstance
          else Plugin.Run Plugin.Manage (name :: more)).
  destruct (Plugin.hasTwoDashes name); split.
  - split; reflexivity.
  - intros Hne. destruct (Hne eq_refl).
  - split; discriminate.
  - reflexivity.
Qed.

(** X10.  The image argument of [install-cluster-operator] has no effect:
    with an image, with another image or with none the script runs the same
    [kubectl apply] of the released manifest. *)
Theorem install_ignores_the_image (image : string) :
  Plugin.script ["install-cluster-operator"; image]
    = Plugin.Run Plugin.InstallClusterOperator [image]
  /\ Plugin.script ["install-cluster-operator"]
     = Plugin.Run Plugin.InstallClusterOperator [""]
  /\ forall image' : string,
       Plugin.install_cluster_operator image = Plugin.install_cluster_operator image'.
Proof. repeat split. Qed.

(** The loop of [create] only appends: it goes through a list of arguments
    that ends well and then on through the arguments behind them. *)
Lemma options_app (n : nat) :
  forall (front back manifest printed manifest' printed' : list string),
    (length front <= n)%nat ->
    Plugin.options front manifest printed = Plugin.Applied manifest' printed' ->
    Plugin.options (front ++ back) manifest printed
    = Plugin.options back manifest' printed'.
Proof.
  induction n as [|n IH]; intros front back manifest printed manifest' printed' Hlen Hfront.
  - destruct front; [|simpl in Hlen; lia]. injection Hfront as <- <-. reflexivity.
  - destruct front as [|option rest]; [injection Hfront as <- <-; reflexivity|].
    cbn [app Plugin.options] in Hfront |- *.
    repeat (destruct (bool_decide (option = _)));
      try (destruct rest as [|value rest']; [discriminate|]);
      cbn [app]; simpl in Hlen; apply IH; try assumption; lia.
Qed.



(** X12.  An option that takes a value and comes last, behind arguments
    that end well, stops [create] at the unbound [$1]: [kubectl apply] is
    not run, whatever was written to the manifest so far. *)
Theorem create_stops_at_missing_value (name option : string)
    (front manifest printed : list string) :
  In option Plugin.valueOptions ->
  Plugin.options front (Plugin.header name) [] = Plugin.Applied manifest printed ->
  exists written, Plugin.create (name :: front ++ [option]) = Plugin.Unbound written printed.
Proof.
  intros Hoption Hfront.
  assert (Hlast : exists written,
             Plugin.options [option] manifest printed = Plugin.Unbound written printed).
  { cbv in Hoption.
    repeat (destruct Hoption as [<-|Hoption]; [eexists; reflexivity|]).
    destruct Hoption. }
  destruct Hlast as [written Hlast]. exists written.
  unfold Plugin.create.
  destruct (front ++ [option])%list as [|a rest] eqn:Hargs; [destruct front; discriminate|].
  rewrite <- Hargs.
  rewrite (options_app _ front [option] _ _ _ _ (Nat.le_refl _) Hfront).
  exact Hlast.
Qed.



(** * The properties on the sample cluster *)

#[local] Existing Instance samplePackage.

Lemma Update_sampleBuilt :
  Update sampleBuilder (ObjStatefulSet sampleBuilt) = Ok tt sampleBuiltUpdated.
Proof. vm_compute. reflexivity. Defined.

Lemma Update_liveStatefulSet :
  Update sampleBuilder (ObjStatefulSet liveStatefulSet) = Ok tt liveUpdated.
Proof. vm_compute. reflexivity. Defined.

(** The sample cluster satisfies what C1 asks of a cluster, on the live
    object and on the freshly built one. *)
Lemma Update_idempotent_witness :
  (exists h : Heap,
      heapOf (Update sampleBuilder (ObjStatefulSet liveStatefulSet)) = Some h
      /\ Update sampleBuilder (ObjStatefulSet (target h))
         = Update sampleBuilder (ObjStatefulSet liveStatefulSet))
  /\ (exists h : Heap,
        Update sampleBuilder (ObjStatefulSet sampleBuilt) = Ok tt h
        /\ Update sampleBuilder (ObjStatefulSet (target h)) = Ok tt h).
Proof.
  destruct (Update_idempotent sampleBuilder sampleResources eq_refl) as [Hany Hbuilt].
  split.
  - exact (Hany liveStatefulSet).
  - exact (Hbuilt (ObjStatefulSet sampleBuilt) eq_refl).
Defined.

(** C2 on the live object: the service name stays, and going from three to
    five replicas rewrites [Replicas] alone. *)
Lemma Update_keeps_identity_fields_witness :
  heapOf (Update sampleBuilder (ObjStatefulSet liveStatefulSet)) = Some liveUpdated
  /\ StatefulSetSpec.ServiceName (StatefulSet.Spec (target liveUpdated))
     = "my-cluster-rabbitmq-headless"
  /\ Update (withReplicas 5 sampleBuilder) (ObjStatefulSet (target liveUpdated))
     = Ok tt (mkHeap (overSpec (StatefulSetSpec.with_Replicas (Some 5)) (target liveUpdated))
                     (logged liveUpdated)).
Proof.
  assert (Hh : heapOf (Update sampleBuilder (ObjStatefulSet liveStatefulSet))
               = Some liveUpdated)
    by (rewrite Update_liveStatefulSet; reflexivity).
  destruct (Update_keeps_identity_fields sampleBuilder liveStatefulSet liveUpdated Hh)
    as (Hsvc & _ & _ & Hchurn).
  split; [exact Hh|]. split; [exact Hsvc|].
  exact (Hchurn Update_liveStatefulSet 5).
Defined.

(** C4 as stated fails on the live object: its DNS policy and its [team]
    label, neither of them among the fields the controller is said to
    manage, are gone after [Update]. *)
Lemma Update_replaces_foreign_fields :
  Update sampleBuilder (ObjStatefulSet liveStatefulSet) = Ok tt liveUpdated
  /\ PodSpec.DNSPolicy (podSpec liveStatefulSet) = "ClusterFirst"
  /\ PodSpec.DNSPolicy (podSpec (target liveUpdated)) = ""
  /\ ObjectMeta.Labels (StatefulSet.Meta liveStatefulSet) !! "team" = Some "payments"
  /\ ObjectMeta.Labels (StatefulSet.Meta (target liveUpdated)) !! "team" = None.
Proof.
  split; [exact Update_liveStatefulSet|].
  repeat split; vm_compute; reflexivity.
Qed.

(** C4 as amended on the live object: the annotations of other parties are
    still there. *)
Lemma Update_preserves_unmanaged_fields_witness :
  heapOf (Update sampleBuilder (ObjStatefulSet liveStatefulSet)) = Some liveUpdated
  /\ managedAnnotation "example.com/contact" = false
  /\ ObjectMeta.Annotations (StatefulSet.Meta (target liveUpdated)) !! "example.com/contact"
     = Some "ops"
  /\ StatefulSet.Status (target liveUpdated) = StatefulSet.Status liveStatefulSet.
Proof.
  assert (Hh : heapOf (Update sampleBuilder (ObjStatefulSet liveStatefulSet))
               = Some liveUpdated)
    by (rewrite Update_liveStatefulSet; reflexivity).
  destruct (Update_preserves_unmanaged_fields sampleBuilder liveStatefulSet liveUpdated Hh)
    as (_ & _ & Hstatus & _ & Hannotations & _).
  split; [exact Hh|]. split; [reflexivity|]. split.
  - exact (proj1 (Hannotations "example.com/contact" eq_refl)).
  - exact Hstatus.
Defined.

(** C5 as stated fails on the sample cluster: the StatefulSet is not named
    [my-cluster-server]. *)
Lemma scenario_name_has_the_component :
  RabbitmqCluster.Name sampleCluster = "my-cluster"
  /\ RabbitmqClusterSpec.Replicas (RabbitmqCluster.Spec sampleCluster) = 3
  /\ RabbitmqClusterSpec.Image (RabbitmqCluster.Spec sampleCluster) = "broker:3.8.9"
  /\ Build sampleBuilder = BuiltObject (ObjStatefulSet sampleBuilt)
  /\ Update sampleBuilder (ObjStatefulSet sampleBuilt) = Ok tt sampleBuiltUpdated
  /\ ObjectMeta.Name (StatefulSet.Meta (target sampleBuiltUpdated))
     = "my-cluster-rabbitmq-server"
  /\ ObjectMeta.Name (StatefulSet.Meta (target sampleBuiltUpdated)) <> "my-cluster-server".
Proof.
  do 3 (split; [reflexivity|]).
  split; [vm_compute; reflexivity|].
  split; [exact Update_sampleBuilt|].
  split; [reflexivity | discriminate].
Qed.

(** C5 as amended on the sample cluster. *)
Lemma end_to_end_scenario_witness :
  exists (built : StatefulSet.t) (h : Heap),
    Build sampleBuilder = BuiltObject (ObjStatefulSet built)
    /\ Update sampleBuilder (ObjStatefulSet built) = Ok tt h
    /\ ObjectMeta.Name (StatefulSet.Meta (target h)) = "my-cluster-rabbitmq-server"
    /\ declaredPorts (podSpec (target h)) = [4369; 5672; 15672; 15692].
Proof.
  destruct (end_to_end_scenario sampleBuilder sampleResources
              (Quantity.mk (10 * 2^30 * 10^9) BinarySI)
              (GroupVersionKind.mk "rabbitmq.com" "v1beta1" "RabbitmqCluster")
              eq_refl eq_refl eq_refl eq_refl eq_refl eq_refl)
    as (built & h & pvc & owner & Hbuild & Hupdate & Hname & _ & _ & _ & _ & _ & Hports & _).
  exists built, h. repeat split; assumption.
Defined.

(** C6 on the sample cluster, whose memory limit is below its request: one
    warning on the live object, the owner error and no line on the object
    somebody else controls. *)
Lemma memory_mismatch_is_a_warning_witness :
  (exists h : Heap,
      Update sampleBuilder (ObjStatefulSet liveStatefulSet) = Ok tt h
      /\ logged h = [ mkLogLine ["statefulset"; "RabbitmqCluster"]
                        (memoryWarning "my-cluster-rabbitmq-server") ])
  /\ (exists (h : Heap) (e : error),
        Update sampleBuilder (ObjStatefulSet foreignStatefulSet) = Err e h
        /\ logged h = []).
Proof.
  split.
  - exact (proj1 (memory_mismatch_is_a_warning sampleBuilder liveStatefulSet
                    sampleResources eq_refl eq_refl) _ eq_refl).
  - destruct (proj2 (memory_mismatch_is_a_warning sampleBuilder foreignStatefulSet
                       sampleResources eq_refl eq_refl) _ eq_refl) as (h & Herr & Hlog).
    exists h. eexists. split; [exact Herr | exact Hlog].
Defined.

(** C7 on the sample cluster. *)
Lemma persistentVolumeClaim_single_template_witness :
  exists pvc : PersistentVolumeClaim.t,
    persistentVolumeClaim sampleCluster sampleScheme = Some ([pvc], None)
    /\ PersistentVolumeClaimSpec.AccessModes (PersistentVolumeClaim.Spec pvc) = [ReadWriteOnce]
    /\ PersistentVolumeClaimSpec.StorageClassName (PersistentVolumeClaim.Spec pvc)
       = Some "standard".
Proof.
  destruct (persistentVolumeClaim_single_template sampleBuilder
              (Quantity.mk (10 * 2^30 * 10^9) BinarySI)
              (GroupVersionKind.mk "rabbitmq.com" "v1beta1" "RabbitmqCluster")
              eq_refl eq_refl)
    as (pvc & Hpvc & Hmodes & _ & Hclass & _).
  exists pvc. split; [exact Hpvc|]. split; [exact Hmodes | exact Hclass].
Defined.

(** C8 for the first pod of the sample cluster. *)
Lemma node_identity_is_deterministic_witness :
  plain "my-cluster" = true
  /\ assoc "RABBITMQ_NODENAME"
           (resolveEnv samplePod (Container.Env (rabbitmqContainer sampleBuilder)) [])
     = Some ("rabbit@my-cluster-rabbitmq-server-0.my-cluster-rabbitmq-headless"
             +:+ ".default.svc.cluster.local").
Proof.
  split; [reflexivity|].
  exact (proj1 (proj2 (proj2 (proj2 (proj2 (proj2 (proj2 (proj2
           (node_identity_is_deterministic sampleBuilder samplePod eq_refl))))))))).
Defined.

(** C10 on the live object. *)
Lemma init_container_resources_are_fixed_witness :
  Update sampleBuilder (ObjStatefulSet liveStatefulSet) = Ok tt liveUpdated
  /\ exists init : Container.t,
       PodSpec.InitContainers (podSpec (target liveUpdated)) = [init]
       /\ Container.Resources init = initContainerResources.
Proof.
  split; [exact Update_liveStatefulSet|].
  destruct (init_container_resources_are_fixed sampleBuilder liveStatefulSet liveUpdated
              Update_liveStatefulSet)
    as (init & main & cpu & memory & resources & Hinit & _ & _ & _ & _ & _ & Hres & _).
  exists init. split; [exact Hinit | exact Hres].
Defined.

(** * The further properties on concrete inputs *)

Lemma criticalTwice_clear_from_two (n : nat) (check : Check) :
  (2 <= n)%nat -> criticalTwice n check <> sentinel.
Proof.
  intros Hn. unfold criticalTwice.
  destruct (Nat.ltb_spec n 2); [lia | discriminate].
Qed.

(** X1 against a diagnostic that is critical for ever. *)
Lemma preStop_blocks_while_quorum_critical_witness :
  preStop 1000 (fun _ _ => sentinel) 0 AtQuorumCheck = None.
Proof.
  exact (proj1 (preStop_blocks_while_quorum_critical (fun _ _ => sentinel)
                  (fun _ => eq_refl) 1000 0)).
Defined.

(** X2 against the diagnostic that is critical twice. *)
Lemma preStop_returns_once_clear_witness :
  exists tr : list Event,
    preStop 6 criticalTwice 0 AtQuorumCheck = Some tr /\ steps AtQuorumCheck tr Returned.
Proof.
  apply (preStop_returns_once_clear criticalTwice 2 6).
  - exact criticalTwice_clear_from_two.
  - simpl. lia.
Defined.

(** X3 on the run against the diagnostic that is critical twice: three
    quorum checks, four seconds of sleep. *)
Lemma preStop_run_counts_witness :
  let tr := [ Invoke QuorumCritical 69; Sleep 2; Invoke QuorumCritical 69; Sleep 2;
              Invoke QuorumCritical 0; Invoke MirrorSyncCritical 0 ] in
  steps AtQuorumCheck tr Returned
  /\ invocations QuorumCritical tr = 3%nat
  /\ secondsSlept tr = 4.
Proof.
  cbv zeta.
  pose proof (preStop_steps 6 criticalTwice 0 AtQuorumCheck _ eq_refl) as Hrun.
  split; [exact Hrun|].
  exact (preStop_run_counts _ Hrun).
Defined.

(** X4 on the object somebody else controls. *)
Lemma Update_error_leaves_half_applied_witness :
  exists (h : Heap) (e : error),
    Update sampleBuilder (ObjStatefulSet foreignStatefulSet) = Err e h
    /\ StatefulSetSpec.Replicas (StatefulSet.Spec (target h)) = Some 1
    /\ ObjectMeta.Labels (StatefulSet.Meta (target h)) !! "team" = Some "payments".
Proof.
  destruct (Update_error_leaves_half_applied sampleBuilder foreignStatefulSet _ eq_refl)
    as (h & Herr & _ & _ & _ & Hlabels & Hreplicas & _).
  exists h. eexists. split; [exact Herr|]. split.
  - rewrite Hreplicas. reflexivity.
  - rewrite Hlabels. reflexivity.
Defined.

(** X5 on the live object. *)
Lemma Update_applies_cluster_parameters_witness :
  StatefulSetSpec.Replicas (StatefulSet.Spec (target liveUpdated)) = Some 3
  /\ PodSpec.ImagePullSecrets (podSpec (target liveUpdated)) = [].
Proof.
  destruct (Update_applies_cluster_parameters sampleBuilder liveStatefulSet liveUpdated
              Update_liveStatefulSet) as (Hreplicas & _ & Hsecrets & _).
  split; [exact Hreplicas | exact Hsecrets].
Defined.

(** X6 on the live object, scaled to nine replicas and stripped of its pod
    specification by somebody. *)
Lemma Update_erases_drift_witness :
  Update sampleBuilder
    (ObjStatefulSet (drifted (Some 9) ∅ ∅ PodSpec.zero liveStatefulSet))
  = Ok tt liveUpdated.
Proof.
  exact (Update_erases_drift sampleBuilder liveStatefulSet liveUpdated
           Update_liveStatefulSet (Some 9) ∅ ∅ PodSpec.zero).
Defined.

(** X7 on the freshly built object, which has the claim, and on the live
    one, which has none. *)
Lemma mounts_are_backed_iff_claimed_witness :
  incl (mountedNames (podSpec (target sampleBuiltUpdated)))
       (volumeNames (podSpec (target sampleBuiltUpdated))
        ++ claimNames (target sampleBuiltUpdated))
  /\ ~ incl (mountedNames (podSpec (target liveUpdated)))
            (volumeNames (podSpec (target liveUpdated)) ++ claimNames (target liveUpdated)).
Proof.
  split.
  - apply (proj1 (mounts_are_backed_iff_claimed sampleBuilder sampleBuilt
                    sampleBuiltUpdated Update_sampleBuilt)).
    simpl. tauto.
  - intros Hincl.
    apply (proj1 (mounts_are_backed_iff_claimed sampleBuilder liveStatefulSet
                    liveUpdated Update_liveStatefulSet)) in Hincl.
    exact Hincl.
Defined.


(** X12 on a call whose last option lacks its value. *)
Lemma create_stops_at_missing_value_witness :
  exists written,
    Plugin.create ["my-cluster"; "--replicas"; "3"; "--service"]
    = Plugin.Unbound written [].
Proof.
  apply (create_stops_at_missing_value "my-cluster" "--service" ["--replicas"; "3"]
           (Plugin.header "my-cluster" ++ ["  replicas: 3"]) []).
  - simpl. tauto.
  - reflexivity.
Defined.
